(** * falcon-marshmallow: the middleware pipeline of [middleware.py]

    A shallow embedding of [falcon_marshmallow/middleware.py] and the
    properties of its three middlewares ([JSONEnforcer],
    [EmptyRequestDropper], [Marshmallow]) and of [get_stashed_content].

    Python values are a first-order datatype [PyVal]; a request is split
    into its read-only attributes ([Request]) and the part the middleware
    mutates ([State]: [req.context], [req.bounded_stream], [resp.body]).
    Middleware code runs in a state-and-exception monad [M]; the state also
    carries a ghost [trace] of the calls made to collaborators (transport
    reads, attribute lookups, codec and schema invocations, context
    writes).  Calls to [log] are not modelled. *)

From Stdlib Require Import ZArith QArith Ascii String List Bool.
From Stdlib.Strings Require Import Byte.
From stdpp Require Import base option list gmap strings pretty.

Set Warnings "-register-all".

Local Open Scope string_scope.
Local Open Scope Z_scope.

(** ** Python values and exceptions *)

(** The exception classes the middleware raises, catches, or may receive
    from its collaborators, with Python's class hierarchy. *)
Inductive ExnClass :=
| BaseException | KeyboardInterrupt | Exception
| TypeError | AttributeError | KeyError | RuntimeError
| ValueError | UnicodeError | UnicodeDecodeError | JSONDecodeError
| MimeTypeParseException
| ValidationError
| HTTPError
| HTTPBadRequest | HTTPInternalServerError | HTTPNotAcceptable
| HTTPUnprocessableEntity | HTTPUnsupportedMediaType.

#[global] Instance ExnClass_eq_dec : EqDecision ExnClass.
Proof. solve_decision. Defined.

(** The direct base class ([None] for the root). *)
Definition base_class (c : ExnClass) : option ExnClass :=
  match c with
  | BaseException => None
  | KeyboardInterrupt | Exception => Some BaseException
  | TypeError | AttributeError | KeyError | RuntimeError | ValueError
  | ValidationError | HTTPError => Some Exception
  | UnicodeError | JSONDecodeError | MimeTypeParseException => Some ValueError
  | UnicodeDecodeError => Some UnicodeError
  | HTTPBadRequest | HTTPInternalServerError | HTTPNotAcceptable
  | HTTPUnprocessableEntity | HTTPUnsupportedMediaType => Some HTTPError
  end.

Fixpoint issubclass_fuel (fuel : nat) (c d : ExnClass) : bool :=
  if bool_decide (c = d) then true
  else match fuel with
       | O => false
       | S fuel' =>
           match base_class c with
           | Some b => issubclass_fuel fuel' b d
           | None => false
           end
       end.

(** The hierarchy above has depth 5. *)
Definition issubclass : ExnClass -> ExnClass -> bool := issubclass_fuel 5.

Inductive PyVal :=
| VNone
| VBool (b : bool)
| VInt (z : Z)
| VStr (s : string)
| VBytes (b : list byte)
| VList (l : list PyVal)
| VTuple (l : list PyVal)
| VDict (d : list (string * PyVal))
| VSet (l : list PyVal)
| VSchema (id : nat)               (* an instance of marshmallow.Schema *)
| VClass (name : string)           (* a class object, e.g. a Schema subclass *)
| VExn (cls : ExnClass) (text : string)   (* an exception object *)
| VObject (id : nat).              (* any other object *)

(** [x is None] *)
Definition is_None (v : PyVal) : bool :=
  match v with VNone => true | _ => false end.

(** Python truthiness, as used by [if not content] and [if errors]. *)
Definition truthy (v : PyVal) : bool :=
  match v with
  | VNone => false
  | VBool b => b
  | VInt z => negb (z =? 0)
  | VStr s => negb (String.eqb s EmptyString)
  | VBytes b => match b with [] => false | _ => true end
  | VList l | VTuple l | VSet l => match l with [] => false | _ => true end
  | VDict d => match d with [] => false | _ => true end
  | VSchema _ | VClass _ | VExn _ _ | VObject _ => true
  end.

(** [isinstance(sch, Schema)] *)
Definition isinstance_Schema (v : PyVal) : bool :=
  match v with VSchema _ => true | _ => false end.

(** A raised exception: its class, [str(exc)], the [title] and
    [description] of falcon's HTTP errors, and the [messages] of a
    marshmallow [ValidationError]. *)
Record Exn := mkExn {
  exn_class : ExnClass;
  exn_text : string;
  exn_title : option string;
  exn_description : option string;
  exn_messages : PyVal;
}.

(** [isinstance(exc, cls)], the test of an [except cls] clause. *)
Definition isinstance (e : Exn) (c : ExnClass) : bool :=
  issubclass (exn_class e) c.

(** The exception as a Python value, as in [{"error": exc}]. *)
Definition exn_object (e : Exn) : PyVal := VExn (exn_class e) (exn_text e).

(** Constructors for the exceptions the middleware raises; the arguments
    follow the keyword arguments of the calls in the source. *)
Definition http_error (c : ExnClass) (title description : option string) : Exn :=
  {| exn_class := c; exn_text := default EmptyString title;
     exn_title := title; exn_description := description;
     exn_messages := VNone |}.

Definition mkHTTPNotAcceptable (description : string) : Exn :=
  http_error HTTPNotAcceptable None (Some description).
Definition mkHTTPUnsupportedMediaType (description : string) : Exn :=
  http_error HTTPUnsupportedMediaType None (Some description).
Definition mkHTTPBadRequest (title description : option string) : Exn :=
  http_error HTTPBadRequest title description.
Definition mkHTTPUnprocessableEntity (description : string) : Exn :=
  http_error HTTPUnprocessableEntity None (Some description).
Definition mkHTTPInternalServerError (title description : string) : Exn :=
  http_error HTTPInternalServerError (Some title) (Some description).

(** An exception without HTTP fields, e.g. [TypeError("...")]. *)
Definition py_error (c : ExnClass) (text : string) : Exn :=
  {| exn_class := c; exn_text := text; exn_title := None;
     exn_description := None; exn_messages := VNone |}.

Definition mkValidationError (messages : PyVal) : Exn :=
  {| exn_class := ValidationError; exn_text := "validation failed";
     exn_title := None; exn_description := None; exn_messages := messages |}.

(** The result of a call: a value or a raised exception. *)
Inductive Outcome (A : Type) :=
| Ok (a : A)
| Raise (e : Exn).
Arguments Ok {A} a.
Arguments Raise {A} e.

(** ** Requests, state and the monad *)

(** The read-only attributes of [falcon.Request] the middleware consults. *)
Record Request := mkRequest {
  method : string;
  content_type : option string;
  content_length : option Z;
  client_accepts_json : bool;
}.

(** Calls to collaborators, recorded in order. *)
Inductive Event :=
| EvRead                          (* req.bounded_stream.read() *)
| EvGetattr (name : string)       (* getattr(resource, name, None) *)
| EvCtxSet (key : string)         (* req.context[key] = ... *)
| EvJsonLoads                     (* self._json.loads(...) *)
| EvJsonDumps                     (* self._json.dumps(...) *)
| EvSchemaLoad (id : nat)         (* sch.load(...) *)
| EvSchemaDumps (id : nat)        (* sch.dumps(...) *)
| EvBodySet.                      (* resp.body = ... *)

#[global] Instance Event_eq_dec : EqDecision Event.
Proof. solve_decision. Defined.

(** What the middleware can mutate: [req.context], the unread rest of
    [req.bounded_stream], [resp.body], and the ghost trace. *)
Record State := mkState {
  context : gmap string PyVal;
  bounded_stream : list byte;
  resp_body : option PyVal;
  trace : list Event;
}.

Definition M (A : Type) : Type := State -> Outcome A * State.

Definition ret {A} (a : A) : M A := fun s => (Ok a, s).

Definition bind {A B} (m : M A) (k : A -> M B) : M B :=
  fun s => match m s with
           | (Ok a, s') => k a s'
           | (Raise e, s') => (Raise e, s')
           end.

Definition raise {A} (e : Exn) : M A := fun s => (Raise e, s).

(** Lift the outcome of a call that does not touch the state. *)
Definition lift {A} (o : Outcome A) : M A := fun s => (o, s).

Definition emit (ev : Event) : M unit :=
  fun s => (Ok tt, {| context := context s; bounded_stream := bounded_stream s;
                      resp_body := resp_body s; trace := trace s ++ [ev] |}).

(** [try: m  except ...: ...]: the handler selects the first matching
    [except] clause, or [None] when no clause matches and the exception
    propagates.  State changes made before the exception persist. *)
Definition try_except {A} (m : M A) (handler : Exn -> option (M A)) : M A :=
  fun s => match m s with
           | (Ok a, s') => (Ok a, s')
           | (Raise e, s') =>
               match handler e with
               | Some h => h s'
               | None => (Raise e, s')
               end
           end.

Declare Scope py_scope.
Delimit Scope py_scope with py.
Notation "x <- m ;; k" := (bind m (fun x => k))
  (at level 100, m at next level, right associativity) : py_scope.
Notation "m ;;; k" := (bind m (fun _ => k))
  (at level 100, right associativity) : py_scope.
Local Open Scope py_scope.

(** [req.context.get(key)] *)
Definition ctx_get (key : string) : M PyVal :=
  fun s => (Ok (default VNone (context s !! key)), s).

(** [req.context[key]] *)
Definition ctx_getitem (key : string) : M PyVal :=
  fun s => match context s !! key with
           | Some v => (Ok v, s)
           | None => (Raise (py_error KeyError key), s)
           end.

(** [key in req.context] *)
Definition ctx_contains (key : string) : M bool :=
  fun s => (Ok (bool_decide (is_Some (context s !! key))), s).

(** [req.context[key] = v] *)
Definition ctx_set (key : string) (v : PyVal) : M unit :=
  fun s => (Ok tt, {| context := <[key := v]> (context s);
                      bounded_stream := bounded_stream s;
                      resp_body := resp_body s;
                      trace := trace s ++ [EvCtxSet key] |}).

(** [req.bounded_stream.read()]: everything not yet read; the stream
    cannot be rewound, so a later read returns the empty bytes. *)
Definition stream_read : M PyVal :=
  fun s => (Ok (VBytes (bounded_stream s)),
            {| context := context s; bounded_stream := [];
               resp_body := resp_body s; trace := trace s ++ [EvRead] |}).

(** [resp.body = v] *)
Definition set_body (v : PyVal) : M unit :=
  fun s => (Ok tt, {| context := context s; bounded_stream := bounded_stream s;
                      resp_body := Some v; trace := trace s ++ [EvBodySet] |}).

(** ** Module constants *)

(** The double-quote character, for the messages that contain one. *)
Definition dq : string := String (ascii_of_nat 34) EmptyString.

Definition JSON_CONTENT_REQUIRED_METHODS : list string := ["POST"; "PUT"; "PATCH"].
Definition JSON_CONTENT_TYPE : string := "application/json".
Definition CONTENT_KEY : string := "content".

(** ** [get_stashed_content] *)

Definition get_stashed_content : M PyVal :=
  cached <- ctx_get CONTENT_KEY ;;
  (if is_None cached
   then (data <- stream_read ;; ctx_set CONTENT_KEY data)
   else ret tt) ;;;
  ctx_getitem CONTENT_KEY.

(** ** [JSONEnforcer] *)

Record JSONEnforcer := mkJSONEnforcer {
  _methods : list string;
}.

(** [JSONEnforcer.__init__]; the default argument is the module constant. *)
Definition JSONEnforcer_init (required_methods : list string) : JSONEnforcer :=
  {| _methods := required_methods |}.

(** [needle in hay] on strings *)
Fixpoint str_contains (needle hay : string) : bool :=
  String.prefix needle hay
  || match hay with
     | EmptyString => false
     | String _ rest => str_contains needle rest
     end.

(** [x in xs] on a tuple of strings *)
Definition str_in (x : string) (xs : list string) : bool :=
  existsb (String.eqb x) xs.

Definition JSONEnforcer_process_request (self : JSONEnforcer) (req : Request) : M unit :=
  if negb (client_accepts_json req) then
    raise (mkHTTPNotAcceptable
      ("This server only supports responses encoded as JSON. "
       +:+ "Please update your " +:+ dq +:+ "Accept" +:+ dq
       +:+ " header to include " +:+ dq +:+ "application/json" +:+ dq +:+ "."))
  else if str_in (method req) JSON_CONTENT_REQUIRED_METHODS then
    if match content_type req with
       | None => true
       | Some ct => negb (str_contains "application/json" ct)
       end
    then raise (mkHTTPUnsupportedMediaType
      (method req +:+ " requests must have " +:+ dq +:+ "application/json" +:+ dq
       +:+ " in their " +:+ dq +:+ "Content-Type" +:+ dq +:+ " header."))
    else ret tt
  else ret tt.

(** ** [EmptyRequestDropper] *)

(** [req.content_length in (None, 0)] *)
Definition in_None_0 (content_length : option Z) : bool :=
  match content_length with
  | None => true
  | Some n => n =? 0
  end.

Definition EmptyRequestDropper_process_request (req : Request) : M unit :=
  if in_None_0 (content_length req) then ret tt
  else
    content <- get_stashed_content ;;
    if negb (truthy content) then
      raise (mkHTTPBadRequest None
        (Some "Empty response body. A valid JSON document is required."))
    else ret tt.

(** ** [Marshmallow] *)

(** The interface of the [json_module] argument: [loads], [dumps] and the
    exception class the module exports as [JSONDecodeError]. *)
Record Codec := mkCodec {
  loads : PyVal -> Outcome PyVal;
  dumps : PyVal -> Outcome string;
  codec_JSONDecodeError : ExnClass;
}.

(** The interface of a marshmallow schema instance.  Under marshmallow 2
    both methods return a [(data, errors)] pair, under marshmallow 3 the
    data alone. *)
Record SchemaObj := mkSchemaObj {
  sch_load : PyVal -> Outcome PyVal;
  sch_dumps : PyVal -> Outcome PyVal;
}.

Record Marshmallow := mkMarshmallow {
  _req_key : string;
  _resp_key : string;
  _force_json : bool;
  _json : Codec;
  _expected_content_type : string;
  _handle_unexpected_content_types : bool;
}.

(** [Marshmallow.__init__] with its default arguments, for a given
    [json_module]. *)
Definition Marshmallow_default (json_module : Codec) : Marshmallow :=
  {| _req_key := "json"; _resp_key := "result"; _force_json := true;
     _json := json_module; _expected_content_type := JSON_CONTENT_TYPE;
     _handle_unexpected_content_types := false |}.

(** [str.lower()], on ASCII letters. *)
Definition lower_ascii (c : ascii) : ascii :=
  let n := nat_of_ascii c in
  if (65 <=? n)%nat && (n <=? 90)%nat then ascii_of_nat (n + 32) else c.

Fixpoint lower (s : string) : string :=
  match s with
  | EmptyString => EmptyString
  | String c rest => String (lower_ascii c) (lower rest)
  end.

(** [str.upper()], on ASCII letters. *)
Definition upper_ascii (c : ascii) : ascii :=
  let n := nat_of_ascii c in
  if (97 <=? n)%nat && (n <=? 122)%nat then ascii_of_nat (n - 32) else c.

Fixpoint upper (s : string) : string :=
  match s with
  | EmptyString => EmptyString
  | String c rest => String (upper_ascii c) (upper rest)
  end.

(** [getattr(resource, name, None)]; a resource is the bag of its
    attributes. *)
Definition getattr (resource : gmap string PyVal) (name : string) : M PyVal :=
  emit (EvGetattr name) ;;; ret (default VNone (resource !! name)).

Definition _get_specific_schema (resource : gmap string PyVal)
    (method msg_type : string) : M PyVal :=
  specific_schema <- getattr resource (lower method +:+ "_" +:+ msg_type +:+ "_schema") ;;
  if negb (is_None specific_schema) then ret specific_schema
  else getattr resource (lower method +:+ "_schema").

Definition _get_schema (resource : gmap string PyVal)
    (method msg_type : string) : M PyVal :=
  specific_schema <- _get_specific_schema resource method msg_type ;;
  if negb (is_None specific_schema) then ret specific_schema
  else getattr resource "schema".

(** [a, b = v] *)
Definition unpack2 (v : PyVal) : Outcome (PyVal * PyVal) :=
  let of_items (items : list PyVal) :=
    match items with
    | [a; b] => Ok (a, b)
    | _ => Raise (py_error ValueError "wrong number of values to unpack")
    end in
  match v with
  | VTuple l | VList l | VSet l => of_items l
  | VDict d => of_items (map (fun kv => VStr (fst kv)) d)
  | VStr s => of_items (map (fun c => VStr (String c EmptyString)) (list_ascii_of_string s))
  | VBytes b => of_items (map (fun x => VInt (Z.of_N (Byte.to_N x))) b)
  | _ => Raise (py_error TypeError "cannot unpack non-iterable object")
  end.

Definition TITLE_NOT_SERIALIZED : string := "Could not serialize response".

Definition MSG_NOT_INSTANTIATED : string :=
  "The schema and <method>_schema properties of a resource "
  +:+ "must be instantiated Marshmallow schemas.".

Definition MSG_SERVER_SIDE_BUG : string :=
  "The server attempted to serialize an object that "
  +:+ "cannot be serialized. This is likely a server-side "
  +:+ "bug.".

Definition MSG_COULD_NOT_DECODE : string :=
  "Could not decode the request body, either because "
  +:+ "it was not valid JSON or because it was not encoded "
  +:+ "as UTF-8.".

Section Middleware.

(** The module constant [MARSHMALLOW_2], fixed by the installed
    marshmallow. *)
Context (MARSHMALLOW_2 : bool).

(** [falcon.vendor.mimeparse.quality]; the float it returns is only
    compared with [0.0], so a rational stands for it. *)
Context (mimeparse_quality : string -> string -> Outcome Q).

(** The schema instances of the application, by object identity. *)
Context (schema_of : nat -> SchemaObj).

Definition _content_is_expected_type (self : Marshmallow)
    (content_type : option string) : Outcome bool :=
  match content_type with
  | None => Ok true
  | Some ct =>
      if String.eqb ct (_expected_content_type self) then Ok true
      else
        match mimeparse_quality ct (_expected_content_type self) with
        | Ok q => Ok (negb (Qeq_bool q 0))
        | Raise e => if isinstance e ValueError then Ok false else Raise e
        end
  end.

Definition json_loads (self : Marshmallow) (body : PyVal) : M PyVal :=
  emit EvJsonLoads ;;; lift (loads (_json self) body).

Definition json_dumps (self : Marshmallow) (v : PyVal) : M string :=
  emit EvJsonDumps ;;; lift (dumps (_json self) v).

(** [sch.load(v)] *)
Definition schema_load (sch v : PyVal) : M PyVal :=
  match sch with
  | VSchema id => emit (EvSchemaLoad id) ;;; lift (sch_load (schema_of id) v)
  | _ => raise (py_error AttributeError "load")
  end.

(** [sch.dumps(v)] *)
Definition schema_dumps (sch v : PyVal) : M PyVal :=
  match sch with
  | VSchema id => emit (EvSchemaDumps id) ;;; lift (sch_dumps (schema_of id) v)
  | _ => raise (py_error AttributeError "dumps")
  end.

Definition process_resource (self : Marshmallow) (req : Request)
    (resource : gmap string PyVal) : M unit :=
  if in_None_0 (content_length req) then ret tt
  else
    skip <- (if negb (_handle_unexpected_content_types self)
             then expected <- lift (_content_is_expected_type self (content_type req)) ;;
                  ret (negb expected)
             else ret false) ;;
    if skip then ret tt
    else
      sch <- _get_schema resource (method req) "request" ;;
      if negb (is_None sch) then
        if negb (isinstance_Schema sch) then
          raise (py_error TypeError MSG_NOT_INSTANTIATED)
        else
          parsed <- try_except
            (body <- get_stashed_content ;; json_loads self body)
            (fun exc =>
               if isinstance exc UnicodeDecodeError then
                 Some (raise (mkHTTPBadRequest
                                (Some "Body was not encoded as UTF-8") None))
               else if isinstance exc (codec_JSONDecodeError (_json self)) then
                 Some (raise (mkHTTPBadRequest
                                (Some "Request must be valid JSON") None))
               else None) ;;
          data <- (if MARSHMALLOW_2 then
                     result <- schema_load sch parsed ;;
                     pair <- lift (unpack2 result) ;;
                     let '(data, errors) := pair in
                     if truthy errors then
                       description <- json_dumps self errors ;;
                       raise (mkHTTPUnprocessableEntity description)
                     else ret data
                   else
                     try_except (schema_load sch parsed)
                       (fun exc =>
                          if isinstance exc ValidationError then
                            Some (description <- json_dumps self (exn_messages exc) ;;
                                  raise (mkHTTPUnprocessableEntity description))
                          else if isinstance exc Exception then
                            Some (description <-
                                    json_dumps self (VDict [("error", exn_object exc)]) ;;
                                  raise (mkHTTPUnprocessableEntity description))
                          else None)) ;;
          ctx_set (_req_key self) data
      else if _force_json self then
        body <- get_stashed_content ;;
        try_except
          (parsed <- json_loads self body ;; ctx_set (_req_key self) parsed)
          (fun exc =>
             if isinstance exc ValueError || isinstance exc UnicodeDecodeError then
               Some (raise (mkHTTPBadRequest None (Some MSG_COULD_NOT_DECODE)))
             else None)
      else ret tt.

Definition process_response (self : Marshmallow) (req : Request)
    (resource : gmap string PyVal) : M unit :=
  present <- ctx_contains (_resp_key self) ;;
  if negb present then ret tt
  else
    sch <- _get_schema resource (method req) "response" ;;
    if negb (is_None sch) then
      if negb (isinstance_Schema sch) then
        raise (py_error TypeError MSG_NOT_INSTANTIATED)
      else
        data <- (if MARSHMALLOW_2 then
                   value <- ctx_getitem (_resp_key self) ;;
                   result <- schema_dumps sch value ;;
                   pair <- lift (unpack2 result) ;;
                     let '(data, errors) := pair in
                   if truthy errors then
                     description <- json_dumps self errors ;;
                     raise (mkHTTPInternalServerError TITLE_NOT_SERIALIZED description)
                   else ret data
                 else
                   try_except
                     (value <- ctx_getitem (_resp_key self) ;;
                      schema_dumps sch value)
                     (fun exc =>
                        if isinstance exc ValidationError then
                          Some (description <- json_dumps self (exn_messages exc) ;;
                                raise (mkHTTPInternalServerError
                                         TITLE_NOT_SERIALIZED description))
                        else if isinstance exc Exception then
                          Some (description <-
                                  json_dumps self (VDict [("error", VStr (exn_text exc))]) ;;
                                raise (mkHTTPInternalServerError
                                         TITLE_NOT_SERIALIZED description))
                        else None)) ;;
        set_body data
    else if _force_json self then
      try_except
        (value <- ctx_getitem (_resp_key self) ;;
         encoded <- json_dumps self value ;;
         set_body (VStr encoded))
        (fun exc =>
           if isinstance exc TypeError then
             Some (raise (mkHTTPInternalServerError
                            TITLE_NOT_SERIALIZED MSG_SERVER_SIDE_BUG))
           else None)
    else ret tt.

End Middleware.

(** ** Reference collaborators

    The theorems below hold for every codec, schema and [mimeparse]; the
    instances here serve to run the middleware on concrete requests. *)

Module Reference.

Definition is_digit (c : ascii) : bool :=
  let n := nat_of_ascii c in (48 <=? n)%nat && (n <=? 57)%nat.

Definition is_space (c : ascii) : bool :=
  let n := nat_of_ascii c in
  (n =? 32)%nat || (n =? 9)%nat || (n =? 10)%nat || (n =? 13)%nat.

Fixpoint skip_ws (s : list ascii) : list ascii :=
  match s with
  | c :: rest => if is_space c then skip_ws rest else s
  | [] => []
  end.

(** Well-formedness of UTF-8 (RFC 3629), on byte values. *)
Definition cont (n : N) : bool := ((128 <=? n) && (n <=? 191))%N.

Fixpoint utf8_valid_fuel (fuel : nat) (b : list N) : bool :=
  match fuel with
  | O => match b with [] => true | _ => false end
  | S fuel' =>
      match b with
      | [] => true
      | x :: r =>
          if (x <=? 127)%N then utf8_valid_fuel fuel' r
          else if ((194 <=? x) && (x <=? 223))%N then
            match r with
            | a :: r' => cont a && utf8_valid_fuel fuel' r'
            | _ => false
            end
          else if ((224 <=? x) && (x <=? 239))%N then
            match r with
            | a :: c :: r' =>
                (if (x =? 224)%N then ((160 <=? a) && (a <=? 191))%N
                 else if (x =? 237)%N then ((128 <=? a) && (a <=? 159))%N
                 else cont a)
                && cont c && utf8_valid_fuel fuel' r'
            | _ => false
            end
          else if ((240 <=? x) && (x <=? 244))%N then
            match r with
            | a :: c :: d :: r' =>
                (if (x =? 240)%N then ((144 <=? a) && (a <=? 191))%N
                 else if (x =? 244)%N then ((128 <=? a) && (a <=? 143))%N
                 else cont a)
                && cont c && cont d && utf8_valid_fuel fuel' r'
            | _ => false
            end
          else false
      end
  end.

Definition utf8_valid (b : list byte) : bool :=
  utf8_valid_fuel (length b) (map Byte.to_N b).

(** The digits of a non-negative integer literal. *)
Fixpoint parse_digits (s : list ascii) (acc : Z) : Z * list ascii :=
  match s with
  | c :: rest =>
      if is_digit c
      then parse_digits rest (10 * acc + Z.of_nat (nat_of_ascii c - 48))
      else (acc, s)
  | [] => (acc, [])
  end.

(** The rest of a string literal, after its opening quote. *)
Fixpoint parse_string (s : list ascii) (acc : list ascii)
    : option (string * list ascii) :=
  match s with
  | [] => None
  | c :: rest =>
      if (nat_of_ascii c =? 34)%nat
      then Some (string_of_list_ascii (rev acc), rest)
      else if (nat_of_ascii c =? 92)%nat then
        match rest with
        | e :: rest' =>
            let n := nat_of_ascii e in
            if (n =? 34)%nat || (n =? 92)%nat || (n =? 47)%nat
            then parse_string rest' (e :: acc)
            else if (n =? 110)%nat then parse_string rest' (ascii_of_nat 10 :: acc)
            else if (n =? 116)%nat then parse_string rest' (ascii_of_nat 9 :: acc)
            else if (n =? 114)%nat then parse_string rest' (ascii_of_nat 13 :: acc)
            else None
        | [] => None
        end
      else if (nat_of_ascii c <? 32)%nat then None
      else parse_string rest (c :: acc)
  end.

Definition starts_with (p : string) (s : list ascii) : option (list ascii) :=
  let p' := list_ascii_of_string p in
  if bool_decide (take (length p') s = p') then Some (drop (length p') s) else None.

(** A recursive-descent parser for the JSON fragment without floats and
    without [\u] escapes; [None] is a syntax error. *)
Fixpoint parse_value (fuel : nat) (s : list ascii) : option (PyVal * list ascii) :=
  match fuel with
  | O => None
  | S fuel' =>
      match skip_ws s with
      | [] => None
      | c :: rest =>
          let n := nat_of_ascii c in
          if (n =? 34)%nat then
            match parse_string rest [] with
            | Some (str, r) => Some (VStr str, r)
            | None => None
            end
          else if (n =? 91)%nat then
            match skip_ws rest with
            | c' :: r' =>
                if (nat_of_ascii c' =? 93)%nat then Some (VList [], r')
                else parse_elements fuel' rest []
            | [] => None
            end
          else if (n =? 123)%nat then
            match skip_ws rest with
            | c' :: r' =>
                if (nat_of_ascii c' =? 125)%nat then Some (VDict [], r')
                else parse_members fuel' rest []
            | [] => None
            end
          else if (n =? 45)%nat then
            match rest with
            | d :: _ =>
                if is_digit d
                then let '(z, r) := parse_digits rest 0 in Some (VInt (- z), r)
                else None
            | [] => None
            end
          else if is_digit c then
            let '(z, r) := parse_digits (c :: rest) 0 in Some (VInt z, r)
          else
            match starts_with "null" (c :: rest) with
            | Some r => Some (VNone, r)
            | None =>
                match starts_with "true" (c :: rest) with
                | Some r => Some (VBool true, r)
                | None =>
                    match starts_with "false" (c :: rest) with
                    | Some r => Some (VBool false, r)
                    | None => None
                    end
                end
            end
      end
  end
with parse_elements (fuel : nat) (s : list ascii) (acc : list PyVal)
    : option (PyVal * list ascii) :=
  match fuel with
  | O => None
  | S fuel' =>
      match parse_value fuel' s with
      | Some (v, r) =>
          match skip_ws r with
          | c :: r' =>
              if (nat_of_ascii c =? 44)%nat then parse_elements fuel' r' (v :: acc)
              else if (nat_of_ascii c =? 93)%nat then Some (VList (rev (v :: acc)), r')
              else None
          | [] => None
          end
      | None => None
      end
  end
with parse_members (fuel : nat) (s : list ascii) (acc : list (string * PyVal))
    : option (PyVal * list ascii) :=
  match fuel with
  | O => None
  | S fuel' =>
      match skip_ws s with
      | q :: r0 =>
          if (nat_of_ascii q =? 34)%nat then
            match parse_string r0 [] with
            | Some (k, r1) =>
                match skip_ws r1 with
                | colon :: r2 =>
                    if (nat_of_ascii colon =? 58)%nat then
                      match parse_value fuel' r2 with
                      | Some (v, r3) =>
                          match skip_ws r3 with
                          | c :: r4 =>
                              if (nat_of_ascii c =? 44)%nat
                              then parse_members fuel' r4 ((k, v) :: acc)
                              else if (nat_of_ascii c =? 125)%nat
                              then Some (VDict (rev ((k, v) :: acc)), r4)
                              else None
                          | [] => None
                          end
                      | None => None
                      end
                    else None
                | [] => None
                end
            | None => None
            end
          else None
      | [] => None
      end
  end.

Definition parse_document (s : list ascii) : Outcome PyVal :=
  match parse_value (S (length s)) s with
  | Some (v, r) =>
      match skip_ws r with
      | [] => Ok v
      | _ => Raise (py_error JSONDecodeError "Extra data")
      end
  | None => Raise (py_error JSONDecodeError "Expecting value")
  end.

Definition ref_loads (body : PyVal) : Outcome PyVal :=
  match body with
  | VBytes b =>
      if utf8_valid b then parse_document (map ascii_of_byte b)
      else Raise (py_error UnicodeDecodeError "invalid UTF-8")
  | VStr s => parse_document (list_ascii_of_string s)
  | _ => Raise (py_error TypeError "the JSON object must be str or bytes")
  end.

(** The body of a JSON string literal. *)
Fixpoint escape (s : list ascii) : list ascii :=
  match s with
  | [] => []
  | c :: rest =>
      let n := nat_of_ascii c in
      if (n =? 34)%nat || (n =? 92)%nat then ascii_of_nat 92 :: c :: escape rest
      else if (n =? 10)%nat then ascii_of_nat 92 :: ascii_of_nat 110 :: escape rest
      else if (n =? 9)%nat then ascii_of_nat 92 :: ascii_of_nat 116 :: escape rest
      else if (n =? 13)%nat then ascii_of_nat 92 :: ascii_of_nat 114 :: escape rest
      else c :: escape rest
  end.

Definition quote (s : string) : string :=
  dq +:+ string_of_list_ascii (escape (list_ascii_of_string s)) +:+ dq.

(** The JSON text of a value; [None] for a value of a type that JSON
    cannot represent (a set, an exception object, a class, ...). *)
Fixpoint encode (v : PyVal) : option string :=
  match v with
  | VNone => Some "null"
  | VBool b => Some (if b then "true" else "false")
  | VInt z => Some (pretty z)
  | VStr s => Some (quote s)
  | VList l | VTuple l =>
      match (fix items (l : list PyVal) : option (list string) :=
               match l with
               | [] => Some []
               | x :: r =>
                   match encode x, items r with
                   | Some a, Some b => Some (a :: b)
                   | _, _ => None
                   end
               end) l with
      | Some parts => Some ("[" +:+ String.concat ", " parts +:+ "]")
      | None => None
      end
  | VDict d =>
      match (fix members (d : list (string * PyVal)) : option (list string) :=
               match d with
               | [] => Some []
               | (k, x) :: r =>
                   match encode x, members r with
                   | Some a, Some b => Some ((quote k +:+ ": " +:+ a) :: b)
                   | _, _ => None
                   end
               end) d with
      | Some parts => Some ("{" +:+ String.concat ", " parts +:+ "}")
      | None => None
      end
  | _ => None
  end.

Definition ref_dumps (v : PyVal) : Outcome string :=
  match encode v with
  | Some text => Ok text
  | None => Raise (py_error TypeError "Object is not JSON serializable")
  end.

(** A JSON codec with the interface of the default [json_module]. *)
Definition json_codec : Codec :=
  {| loads := ref_loads; dumps := ref_dumps;
     codec_JSONDecodeError := JSONDecodeError |}.

(** A list that contains itself ([l = []; l.append(l)]).  [PyVal] has no
    cyclic values, so it is an opaque object that the codec below
    recognises. *)
Definition self_containing_list : PyVal := VObject 0.

(** [json_codec] with the circular-reference check of the JSON encoders:
    encoding a container that contains itself raises [ValueError]. *)
Definition circular_checking_codec : Codec :=
  {| loads := ref_loads;
     dumps := fun v =>
       match v with
       | VObject O => Raise (py_error ValueError "Circular reference detected")
       | _ => ref_dumps v
       end;
     codec_JSONDecodeError := JSONDecodeError |}.

(** The part of [s] before the first [c], and the part after it. *)
Fixpoint split_at (c : ascii) (s : list ascii) : list ascii * option (list ascii) :=
  match s with
  | [] => ([], None)
  | x :: rest =>
      if bool_decide (x = c) then ([], Some rest)
      else let '(a, b) := split_at c rest in (x :: a, b)
  end.

Definition strip (s : list ascii) : list ascii :=
  rev (skip_ws (rev (skip_ws s))).

(** [mimeparse.parse_mime_type], without the parameters: the type and
    subtype, or [None] where mimeparse raises [MimeTypeParseException]. *)
Definition parse_mime_type (mime_type : string) : option (string * string) :=
  let full := strip (fst (split_at (ascii_of_nat 59) (list_ascii_of_string mime_type))) in
  let full := if bool_decide (full = [ascii_of_nat 42])
              then list_ascii_of_string "*/*" else full in
  match split_at (ascii_of_nat 47) full with
  | (t, Some rest) =>
      match split_at (ascii_of_nat 47) rest with
      | (st, None) => Some (string_of_list_ascii (strip t), string_of_list_ascii (strip st))
      | _ => None
      end
  | _ => None
  end.

(** [mimeparse.quality] for a single media range, ignoring [q]
    parameters: 1 when the range covers the type, else 0. *)
Definition ref_quality (mime_type ranges : string) : Outcome Q :=
  match parse_mime_type ranges, parse_mime_type mime_type with
  | Some (rt, rst), Some (t, st) =>
      let covers (a b : string) :=
        String.eqb a b || String.eqb a "*" || String.eqb b "*" in
      Ok (if covers rt t && covers rst st then 1%Q else 0%Q)
  | _, _ => Raise (py_error MimeTypeParseException "Can't parse type")
  end.

(** [FooSchema] of the tests under marshmallow 3: the key [foo] is
    loaded into the field [bar], and [int] must be an integer. *)
Definition FooSchema_load (v : PyVal) : Outcome PyVal :=
  match v with
  | VDict d =>
      if forallb (fun kv => negb (String.eqb (fst kv) "int")
                            || match snd kv with VInt _ => true | _ => false end) d
      then Ok (VDict (map (fun kv => (if String.eqb (fst kv) "foo" then "bar" else fst kv,
                                      snd kv)) d))
      else Raise (mkValidationError
                    (VDict [("int", VList [VStr "Not a valid integer."])]))
  | _ => Raise (mkValidationError
                  (VDict [("_schema", VList [VStr "Invalid input type."])]))
  end.

Definition FooSchema_dumps (v : PyVal) : Outcome PyVal :=
  match v with
  | VDict d =>
      match ref_dumps (VDict (map (fun kv => (if String.eqb (fst kv) "bar" then "foo"
                                              else fst kv, snd kv)) d)) with
      | Ok text => Ok (VStr text)
      | Raise e => Raise e
      end
  | _ => Raise (py_error AttributeError "object has no attribute")
  end.

Definition FooSchema : SchemaObj :=
  {| sch_load := FooSchema_load; sch_dumps := FooSchema_dumps |}.

(** A schema whose hooks raise an exception that is not a
    [ValidationError]. *)
Definition RaisingSchema : SchemaObj :=
  {| sch_load := fun _ => Raise (py_error RuntimeError "boom");
     sch_dumps := fun _ => Raise (py_error RuntimeError "boom") |}.

(** The schema objects of the examples: object 0 is a [FooSchema()],
    every other one a [RaisingSchema()]. *)
Definition schemas (id : nat) : SchemaObj :=
  match id with
  | O => FooSchema
  | _ => RaisingSchema
  end.

Definition bytes_of_string (s : string) : list byte :=
  map byte_of_ascii (list_ascii_of_string s).

(** The request bodies [{"foo": "test"}] and [{"foo": }] of the tests. *)
Definition body_foo_test : string :=
  "{" +:+ quote "foo" +:+ ": " +:+ quote "test" +:+ "}".

Definition body_malformed : string := "{" +:+ quote "foo" +:+ ": }".

(** A request context that nothing has written yet. *)
Definition fresh (body : string) : State :=
  {| context := ∅; bounded_stream := bytes_of_string body;
     resp_body := None; trace := [] |}.

End Reference.

(** A POST request with a JSON content type and a declared length. *)
Definition json_post : Request := mkRequest "POST" (Some "application/json") (Some 15) true.

(** The context after a handler stored [value] as its result. *)
Definition with_result (value : PyVal) : State :=
  {| context := {[ "result" := value ]}; bounded_stream := [];
     resp_body := None; trace := [] |}.

(** ** Definitions used to state the properties *)

(** [s] after the calls [evs], which leave the request and the response
    as they are. *)
Definition with_events (s : State) (evs : list Event) : State :=
  {| context := context s; bounded_stream := bounded_stream s;
     resp_body := resp_body s; trace := trace s ++ evs |}.

Definition is_getattr (ev : Event) : Prop :=
  match ev with EvGetattr _ => True | _ => False end.

(** Whether a run ended by raising an exception of exactly class [c]. *)
Definition raises {A} (c : ExnClass) (r : Outcome A * State) : bool :=
  match fst r with
  | Raise e => bool_decide (exn_class e = c)
  | Ok _ => false
  end.

(** The content type is absent or does not contain "application/json". *)
Definition lacks_json (req : Request) : bool :=
  match content_type req with
  | None => true
  | Some ct => negb (str_contains "application/json" ct)
  end.

(** [n] successive calls of [get_stashed_content] within one request. *)
Fixpoint get_stashed_content_times (n : nat) : M (list PyVal) :=
  match n with
  | O => ret []
  | S k =>
      v <- get_stashed_content ;;
      vs <- get_stashed_content_times k ;;
      ret (v :: vs)
  end.

(** The state after the first [get_stashed_content] of a request. *)
Definition stashed (s : State) : State :=
  {| context := <[CONTENT_KEY := VBytes (bounded_stream s)]> (context s);
     bounded_stream := [];
     resp_body := resp_body s;
     trace := trace s ++ [EvRead; EvCtxSet CONTENT_KEY] |}.

(** The precedence of the specification, written on the attribute bag: an
    attribute is set when the resource has it with a value other than
    [None]. *)
Definition attribute_set (resource : gmap string PyVal) (name : string) : option PyVal :=
  match resource !! name with
  | Some v => if is_None v then None else Some v
  | None => None
  end.

Definition resolveSchema_spec (resource : gmap string PyVal)
    (method direction : string) : PyVal :=
  match attribute_set resource (lower method +:+ "_" +:+ direction +:+ "_schema") with
  | Some v => v
  | None =>
      match attribute_set resource (lower method +:+ "_schema") with
      | Some v => v
      | None =>
          match attribute_set resource "schema" with
          | Some v => v
          | None => VNone
          end
      end
  end.

(** The attribute lookups [_get_schema] makes, in order. *)
Definition lookups (resource : gmap string PyVal) (method direction : string)
    : list Event :=
  let first := lower method +:+ "_" +:+ direction +:+ "_schema" in
  let second := lower method +:+ "_schema" in
  match attribute_set resource first with
  | Some _ => [EvGetattr first]
  | None =>
      match attribute_set resource second with
      | Some _ => [EvGetattr first; EvGetattr second]
      | None => [EvGetattr first; EvGetattr second; EvGetattr "schema"]
      end
  end.

(** The inbound path up to schema resolution: the declared length is
    nonzero and the content type is handled, so [process_resource] goes on
    to resolve a schema. *)
Definition handled (mimeparse_quality : string -> string -> Outcome Q)
    (self : Marshmallow) (req : Request) : Prop :=
  in_None_0 (content_length req) = false
  /\ (_handle_unexpected_content_types self = true
      \/ _content_is_expected_type mimeparse_quality self (content_type req) = Ok true).

(** Between [s] and [s'] the context gained at most the stashed body under
    the reserved key, and no call wrote [key]. *)
Definition payload_unwritten (key : string) (s s' : State) : Prop :=
  (context s' = context s
   \/ context s' = <[CONTENT_KEY := VBytes (bounded_stream s)]> (context s))
  /\ exists evs, trace s' = (trace s ++ evs)%list /\ ~ In (EvCtxSet key) evs.

(** The invariant behind [payload_unwritten]: relative to the state [s0]
    at entry, either nothing was stashed yet (context and stream are those
    of [s0]) or the context is that of [s0] with the body of [s0] stashed;
    and no call wrote [key]. *)
Definition stash_inv (key : string) (s0 s : State) : Prop :=
  ((context s = context s0 /\ bounded_stream s = bounded_stream s0)
   \/ context s = <[CONTENT_KEY := VBytes (bounded_stream s0)]> (context s0))
  /\ exists evs, trace s = (trace s0 ++ evs)%list /\ ~ In (EvCtxSet key) evs.

(** [m] keeps the invariant [I], whatever its outcome. *)
Definition preserves {A} (I : State -> Prop) (m : M A) : Prop :=
  forall s o s', I s -> m s = (o, s') -> I s'.

(** [m] keeps the invariant [I] whenever it raises. *)
Definition fails_within {A} (I : State -> Prop) (m : M A) : Prop :=
  forall s e s', I s -> m s = (Raise e, s') -> I s'.

(** ** Definitions used by the further properties *)

(** From a state that satisfies [I], [m] ends, whatever its outcome, in a
    state that satisfies [Q]. *)
Definition ensures {A} (I : State -> Prop) (m : M A) (Q : State -> Prop) : Prop :=
  forall s o s', I s -> m s = (o, s') -> Q s'.

(** The collaborators [process_resource] calls, apart from the transport
    read and the context writes. *)
Definition inbound_call (ev : Event) : Prop :=
  match ev with
  | EvGetattr _ | EvJsonLoads | EvJsonDumps | EvSchemaLoad _ => True
  | _ => False
  end.

(** The collaborators [process_response] calls, apart from the write of
    the response body. *)
Definition outbound_call (ev : Event) : Prop :=
  match ev with
  | EvGetattr _ | EvJsonDumps | EvSchemaDumps _ => True
  | _ => False
  end.

(** What [get_stashed_content] yields in [s]: the stash when there is one,
    else the unread rest of the stream. *)
Definition stash_view (s : State) : PyVal :=
  match context s !! CONTENT_KEY with
  | Some v => if is_None v then VBytes (bounded_stream s) else v
  | None => VBytes (bounded_stream s)
  end.

(** Two states in which the body looks the same and [key] holds the same. *)
Definition same_view (key : string) (s s' : State) : Prop :=
  stash_view s = stash_view s' /\ context s !! key = context s' !! key.

(** [m] gives the same outcome in related states and keeps them related. *)
Definition coupled {A} (R : State -> State -> Prop) (m : M A) : Prop :=
  forall s s', R s s' -> fst (m s) = fst (m s') /\ R (snd (m s)) (snd (m s')).

(** The number of transport reads among the calls [evs]. *)
Definition reads (evs : list Event) : nat := count_occ Event_eq_dec evs EvRead.

(** The inbound path with a resolved schema instance [id]: the request is
    handled, the body obtained in [s1] is [body] and the codec decodes it
    to [parsed]. *)
Definition schema_path (mimeparse_quality : string -> string -> Outcome Q)
    (self : Marshmallow) (req : Request) (resource : gmap string PyVal)
    (s : State) (id : nat) (body : PyVal) (s1 : State) (parsed : PyVal) : Prop :=
  handled mimeparse_quality self req
  /\ resolveSchema_spec resource (method req) "request" = VSchema id
  /\ get_stashed_content (with_events s (lookups resource (method req) "request"))
     = (Ok body, s1)
  /\ loads (_json self) body = Ok parsed.

(** The inbound path without schema and with the generic fallback. *)
Definition generic_path (mimeparse_quality : string -> string -> Outcome Q)
    (self : Marshmallow) (req : Request) (resource : gmap string PyVal)
    (s : State) (body : PyVal) (s1 : State) : Prop :=
  handled mimeparse_quality self req
  /\ is_None (resolveSchema_spec resource (method req) "request") = true
  /\ _force_json self = true
  /\ get_stashed_content (with_events s (lookups resource (method req) "request"))
     = (Ok body, s1).

(** The state after [process_resource] stored [data] under [key], the
    calls [evs] having been made since [s1]. *)
Definition stored (s1 : State) (evs : list Event) (key : string) (data : PyVal) : State :=
  {| context := <[key := data]> (context s1);
     bounded_stream := bounded_stream s1;
     resp_body := resp_body s1;
     trace := trace s1 ++ evs ++ [EvCtxSet key] |}.

(** The state after [process_response] set the body to [data], the calls
    [evs] having been made since [s]. *)
Definition responded (s : State) (evs : list Event) (data : PyVal) : State :=
  {| context := context s;
     bounded_stream := bounded_stream s;
     resp_body := Some data;
     trace := trace s ++ evs ++ [EvBodySet] |}.

(** [self] with every content type handled. *)
Definition handling_all (self : Marshmallow) : Marshmallow :=
  {| _req_key := _req_key self; _resp_key := _resp_key self;
     _force_json := _force_json self; _json := _json self;
     _expected_content_type := _expected_content_type self;
     _handle_unexpected_content_types := true |}.

(** [req] with another content type. *)
Definition with_content_type (req : Request) (ct : option string) : Request :=
  {| method := method req; content_type := ct;
     content_length := content_length req;
     client_accepts_json := client_accepts_json req |}.

(** Concrete data for the further properties: a resource whose [schema]
    is the [FooSchema()] object, one whose [schema] is the raising schema,
    the state after the body [{"foo": "test"}] of a fresh request was
    stashed on the way through [process_resource], and what the codec
    decodes that body to. *)
Definition foo_resource : gmap string PyVal := {[ "schema" := VSchema 0 ]}.

Definition raising_resource : gmap string PyVal := {[ "schema" := VSchema 1 ]}.

Definition foo_body : PyVal := VBytes (Reference.bytes_of_string Reference.body_foo_test).

Definition foo_parsed : PyVal := VDict [("foo", VStr "test")].

Definition foo_stashed (resource : gmap string PyVal) : State :=
  stashed (with_events (Reference.fresh Reference.body_foo_test)
             (lookups resource "POST" "request")).

(** The schema objects under marshmallow 2, where load and dumps return a
    pair of data and errors: object 0 is [FooSchema()], which reports its
    validation messages as the errors, every other object raises. *)
Definition schemas2 (id : nat) : SchemaObj :=
  match id with
  | O =>
      {| sch_load := fun v =>
           match Reference.FooSchema_load v with
           | Ok data => Ok (VTuple [data; VDict []])
           | Raise e => Ok (VTuple [VDict []; exn_messages e])
           end;
         sch_dumps := fun v =>
           match Reference.FooSchema_dumps v with
           | Ok text => Ok (VTuple [text; VDict []])
           | Raise e => Raise e
           end |}
  | _ => Reference.RaisingSchema
  end.

(** [Marshmallow(force_json=False)] *)
Definition Marshmallow_no_fallback (json_module : Codec) : Marshmallow :=
  {| _req_key := "json"; _resp_key := "result"; _force_json := false;
     _json := json_module; _expected_content_type := JSON_CONTENT_TYPE;
     _handle_unexpected_content_types := false |}.

(** * Properties *)

Import Reference.

(** ** The monad and the state *)

Lemma with_events_nil s : with_events s [] = s.
Proof. destruct s; unfold with_events; simpl. by rewrite app_nil_r. Qed.

Lemma with_events_app s evs evs' :
  with_events (with_events s evs) evs' = with_events s (evs ++ evs').
Proof. unfold with_events; simpl. by rewrite app_assoc. Qed.

Lemma emit_with_events ev s : emit ev s = (Ok tt, with_events s [ev]).
Proof. reflexivity. Qed.

(** Rules for [preserves] and [fails_within]. *)

Section Rules.

Context {A B : Type} (I : State -> Prop).

Lemma preserves_ret (a : A) : preserves I (ret a).
Proof. intros s o s' Hs [= <- <-]. done. Qed.

Lemma preserves_raise (e : Exn) : preserves I (raise (A := A) e).
Proof. intros s o s' Hs [= <- <-]. done. Qed.

Lemma preserves_lift (o : Outcome A) : preserves I (lift o).
Proof. intros s o' s' Hs [= <- <-]. done. Qed.

Lemma preserves_bind (m : M A) (k : A -> M B) :
  preserves I m -> (forall a, preserves I (k a)) -> preserves I (bind m k).
Proof.
  intros Hm Hk s o s' Hs. unfold bind.
  destruct (m s) as [[a|e] s1] eqn:Hrun.
  - apply (Hk a). by apply (Hm _ _ _ Hs Hrun).
  - intros [= <- <-]. by apply (Hm _ _ _ Hs Hrun).
Qed.

Lemma preserves_try (m : M A) (handler : Exn -> option (M A)) :
  preserves I m ->
  (forall e h, handler e = Some h -> preserves I h) ->
  preserves I (try_except m handler).
Proof.
  intros Hm Hh s o s' Hs. unfold try_except.
  destruct (m s) as [[a|e] s1] eqn:Hrun.
  - intros [= <- <-]. by apply (Hm _ _ _ Hs Hrun).
  - destruct (handler e) as [h|] eqn:Hhandler.
    + apply (Hh _ _ Hhandler). by apply (Hm _ _ _ Hs Hrun).
    + intros [= <- <-]. by apply (Hm _ _ _ Hs Hrun).
Qed.

Lemma preserves_fails (m : M A) : preserves I m -> fails_within I m.
Proof. intros Hm s e s' Hs Hrun. by apply (Hm _ _ _ Hs Hrun). Qed.

Lemma fails_bind (m : M A) (k : A -> M B) :
  preserves I m -> (forall a, fails_within I (k a)) -> fails_within I (bind m k).
Proof.
  intros Hm Hk s e s' Hs. unfold bind.
  destruct (m s) as [[a|e'] s1] eqn:Hrun.
  - apply (Hk a). by apply (Hm _ _ _ Hs Hrun).
  - intros [= <- <-]. by apply (Hm _ _ _ Hs Hrun).
Qed.

Lemma fails_try (m : M A) (handler : Exn -> option (M A)) :
  fails_within I m ->
  (forall e h, handler e = Some h -> fails_within I h) ->
  fails_within I (try_except m handler).
Proof.
  intros Hm Hh s e s' Hs. unfold try_except.
  destruct (m s) as [[a|e'] s1] eqn:Hrun; [done|].
  destruct (handler e') as [h|] eqn:Hhandler.
  - apply (Hh _ _ Hhandler). by apply (Hm _ _ _ Hs Hrun).
  - intros [= <- <-]. by apply (Hm _ _ _ Hs Hrun).
Qed.

End Rules.

(** A context write never raises. *)
Lemma fails_ctx_set (I : State -> Prop) key v : fails_within I (ctx_set key v).
Proof. intros s e s' _. discriminate. Qed.

(** ** [get_stashed_content] *)

Lemma get_stashed_content_miss s :
  default VNone (context s !! CONTENT_KEY) = VNone ->
  get_stashed_content s = (Ok (VBytes (bounded_stream s)), stashed s).
Proof.
  intros Hnone. unfold get_stashed_content, bind, ctx_get, stream_read,
    ctx_set, ctx_getitem, stashed; simpl.
  rewrite Hnone; simpl. rewrite lookup_insert_eq.
  by rewrite <- app_assoc.
Qed.

Lemma get_stashed_content_hit s v :
  context s !! CONTENT_KEY = Some v -> is_None v = false ->
  get_stashed_content s = (Ok v, s).
Proof.
  intros Hv Hnn. unfold get_stashed_content, bind, ctx_get, ctx_getitem, ret.
  rewrite Hv; simpl. rewrite Hnn. by rewrite Hv.
Qed.

(** The accessor never raises, and the context it leaves holds what it
    returned under the reserved key. *)
Lemma get_stashed_content_total s :
  exists v,
    (get_stashed_content s = (Ok v, s) /\ context s !! CONTENT_KEY = Some v
       /\ is_None v = false)
    \/ (get_stashed_content s = (Ok v, stashed s) /\ v = VBytes (bounded_stream s)
        /\ default VNone (context s !! CONTENT_KEY) = VNone).
Proof.
  destruct (context s !! CONTENT_KEY) as [v|] eqn:Hv.
  - destruct (is_None v) eqn:Hn.
    + exists (VBytes (bounded_stream s)). right.
      destruct v; try discriminate.
      split; [apply get_stashed_content_miss; by rewrite Hv | by rewrite ?Hv].
    + exists v. left. split; [by apply get_stashed_content_hit | done].
  - exists (VBytes (bounded_stream s)). right.
    split; [apply get_stashed_content_miss; by rewrite Hv | by rewrite ?Hv].
Qed.

Lemma stashed_hit s :
  get_stashed_content (stashed s) = (Ok (VBytes (bounded_stream s)), stashed s).
Proof.
  apply get_stashed_content_hit; [|done].
  unfold stashed; simpl. apply lookup_insert_eq.
Qed.

(** C4: on a request whose reserved key has not been written, the first
    call of get_stashed_content reads the whole body from the stream and
    stores it under the reserved key (one read, one write, in the trace);
    any number of further calls return the same bytes and leave the state,
    trace included, as it is, so there is no second read and no second
    write; and so does a call in any later state of the request that still
    holds the stored bytes. *)
Theorem C4_stash_once (s : State) (n : nat)
    (Hunwritten : default VNone (context s !! CONTENT_KEY) = VNone) :
  get_stashed_content s = (Ok (VBytes (bounded_stream s)), stashed s)
  /\ context (stashed s) !! CONTENT_KEY = Some (VBytes (bounded_stream s))
  /\ trace (stashed s) = (trace s ++ [EvRead; EvCtxSet CONTENT_KEY])%list
  /\ get_stashed_content_times n (stashed s)
     = (Ok (replicate n (VBytes (bounded_stream s))), stashed s)
  /\ (forall s2 : State,
        context s2 !! CONTENT_KEY = Some (VBytes (bounded_stream s)) ->
        get_stashed_content s2 = (Ok (VBytes (bounded_stream s)), s2)).
Proof.
  split; [by apply get_stashed_content_miss|].
  split; [apply lookup_insert_eq|].
  split; [done|].
  split.
  - induction n as [|n IH]; [done|].
    simpl. unfold bind at 1. rewrite stashed_hit.
    unfold bind at 1. by rewrite IH.
  - intros s2 Hs2. by apply get_stashed_content_hit.
Qed.

Lemma C4_stash_once_witness :
  default VNone (context (fresh "abc") !! CONTENT_KEY) = VNone
  /\ get_stashed_content_times 3 (stashed (fresh "abc"))
     = (Ok (replicate 3 (VBytes (bytes_of_string "abc"))), stashed (fresh "abc")).
Proof.
  split; [reflexivity|].
  refine (proj1 (proj2 (proj2 (proj2 (C4_stash_once (fresh "abc") 3 _))))).
  reflexivity.
Defined.

(** ** [EmptyRequestDropper] *)

Lemma in_None_0_true cl : in_None_0 cl = true <-> cl = None \/ cl = Some 0.
Proof.
  destruct cl as [n|]; simpl.
  - rewrite Z.eqb_eq. split; [intros ->; by right|intros [?|?]; congruence].
  - split; [by left|done].
Qed.

Lemma truthy_bytes b : truthy (VBytes b) = false <-> b = [].
Proof. by destruct b. Qed.

(** C5: with a declared content length that is absent or zero, the guard
    returns and leaves the state, trace included, as it is (no read).  With
    a nonzero declared length it obtains the content through
    get_stashed_content and raises bad-request exactly when that content is
    falsy; when the reserved key is still unwritten the content is the
    body read from the stream, so the guard fails exactly when the body is
    empty, and a nonempty body passes. *)
Theorem C5_empty_body_guard (req : Request) (s : State) :
  (content_length req = None \/ content_length req = Some 0 ->
     EmptyRequestDropper_process_request req s = (Ok tt, s))
  /\ (forall n : Z, content_length req = Some n -> n <> 0 ->
       exists content s',
         get_stashed_content s = (Ok content, s')
         /\ EmptyRequestDropper_process_request req s
            = (if truthy content then Ok tt
               else Raise (mkHTTPBadRequest None
                      (Some "Empty response body. A valid JSON document is required.")),
               s')
         /\ (raises HTTPBadRequest (EmptyRequestDropper_process_request req s) = true
             <-> truthy content = false)
         /\ (default VNone (context s !! CONTENT_KEY) = VNone ->
             content = VBytes (bounded_stream s)
             /\ In EvRead (trace s')
             /\ (raises HTTPBadRequest (EmptyRequestDropper_process_request req s) = true
                 <-> bounded_stream s = []))).
Proof.
  split.
  - intros Hcl. apply in_None_0_true in Hcl.
    unfold EmptyRequestDropper_process_request. by rewrite Hcl.
  - intros n Hn Hnz.
    assert (Hcl : in_None_0 (content_length req) = false).
    { rewrite Hn; simpl. by apply Z.eqb_neq. }
    assert (Hrun : forall content s', get_stashed_content s = (Ok content, s') ->
              EmptyRequestDropper_process_request req s
              = (if truthy content then Ok tt
                 else Raise (mkHTTPBadRequest None
                   (Some "Empty response body. A valid JSON document is required.")), s')).
    { intros content s' Hget. unfold EmptyRequestDropper_process_request.
      rewrite Hcl. unfold bind. rewrite Hget. by destruct (truthy content). }
    assert (Hiff : forall content s', get_stashed_content s = (Ok content, s') ->
              raises HTTPBadRequest (EmptyRequestDropper_process_request req s) = true
              <-> truthy content = false).
    { intros content s' Hget. rewrite (Hrun _ _ Hget).
      unfold raises. by destruct (truthy content). }
    destruct (get_stashed_content_total s) as [v [(Hget & Hv & Hnn)|(Hget & Hv & Hmiss)]].
    + exists v, s.
      split; [done|]. split; [by apply Hrun|]. split; [by apply Hiff with s|].
      intros Hunwritten. rewrite Hv in Hunwritten; simpl in Hunwritten.
      subst v; discriminate.
    + exists v, (stashed s).
      split; [done|]. split; [by apply Hrun|].
      split; [by apply Hiff with (stashed s)|].
      intros _. split; [done|]. split.
      * unfold stashed; simpl. apply in_or_app. right. by left.
      * rewrite (Hiff _ _ Hget). subst v. apply truthy_bytes.
Qed.

Lemma C5_empty_body_guard_witness :
  EmptyRequestDropper_process_request
    (mkRequest "POST" (Some "application/json") None true) (fresh "abc")
  = (Ok tt, fresh "abc")
  /\ raises HTTPBadRequest
       (EmptyRequestDropper_process_request
          (mkRequest "POST" (Some "application/json") (Some 10) true)
          (fresh EmptyString)) = true.
Proof.
  split.
  - apply (proj1 (C5_empty_body_guard
                    (mkRequest "POST" (Some "application/json") None true)
                    (fresh "abc"))).
    left. reflexivity.
  - destruct (proj2 (C5_empty_body_guard
                       (mkRequest "POST" (Some "application/json") (Some 10) true)
                       (fresh EmptyString)) 10 eq_refl ltac:(lia))
      as (content & s' & _ & _ & _ & Hfresh).
    apply (proj2 (proj2 (Hfresh eq_refl))). reflexivity.
Defined.

(** ** Schema resolution *)

Lemma lower_ascii_upper_ascii c : lower_ascii (upper_ascii c) = lower_ascii c.
Proof. destruct c as [[] [] [] [] [] [] [] []]; reflexivity. Qed.

Lemma lower_ascii_idemp c : lower_ascii (lower_ascii c) = lower_ascii c.
Proof. destruct c as [[] [] [] [] [] [] [] []]; reflexivity. Qed.

(** Upper-casing or lower-casing a method does not change what it is
    lower-cased to. *)
Lemma lower_upper m : lower (upper m) = lower m.
Proof. induction m as [|c m IH]; simpl; [done|]. by rewrite lower_ascii_upper_ascii, IH. Qed.

Lemma lower_lower m : lower (lower m) = lower m.
Proof. induction m as [|c m IH]; simpl; [done|]. by rewrite lower_ascii_idemp, IH. Qed.

Lemma getattr_run resource name s :
  getattr resource name s = (Ok (default VNone (resource !! name)), with_events s [EvGetattr name]).
Proof. reflexivity. Qed.

Lemma attribute_set_None resource name :
  attribute_set resource name = None -> default VNone (resource !! name) = VNone.
Proof.
  unfold attribute_set. destruct (resource !! name) as [v|]; [|done].
  simpl. destruct v; simpl; congruence.
Qed.

Lemma attribute_set_Some resource name v :
  attribute_set resource name = Some v ->
  default VNone (resource !! name) = v /\ is_None v = false.
Proof.
  unfold attribute_set. destruct (resource !! name) as [w|]; [|done].
  simpl. destruct (is_None w) eqn:Hw; [done|]. by intros [= ->].
Qed.

(** What [_get_schema] returns and which lookups it makes. *)
Lemma _get_schema_run resource m d s :
  _get_schema resource m d s
  = (Ok (resolveSchema_spec resource m d), with_events s (lookups resource m d)).
Proof.
  unfold _get_schema, _get_specific_schema, resolveSchema_spec, lookups,
    getattr, bind, ret, emit, with_events; simpl.
  destruct (attribute_set resource (lower m +:+ "_" +:+ d +:+ "_schema")) as [v1|] eqn:H1.
  - apply attribute_set_Some in H1 as [-> Hn]. rewrite Hn; simpl. by rewrite Hn.
  - apply attribute_set_None in H1 as ->. simpl.
    destruct (attribute_set resource (lower m +:+ "_schema")) as [v2|] eqn:H2.
    + apply attribute_set_Some in H2 as [-> Hn]. rewrite Hn; simpl.
      by rewrite <- app_assoc.
    + apply attribute_set_None in H2 as ->. simpl. rewrite <- !app_assoc; simpl.
      destruct (attribute_set resource "schema") as [v3|] eqn:H3.
      * by apply attribute_set_Some in H3 as [-> _].
      * by apply attribute_set_None in H3 as ->.
Qed.

Lemma lookups_getattr resource m d : Forall is_getattr (lookups resource m d).
Proof.
  unfold lookups. repeat case_match; repeat constructor.
Qed.

Lemma lookups_no_write key resource m d : ~ In (EvCtxSet key) (lookups resource m d).
Proof.
  intros Hin. pose proof (lookups_getattr resource m d) as Hall.
  rewrite Forall_forall in Hall. apply list_elem_of_In in Hin. by apply Hall in Hin.
Qed.

(** C3: _get_schema returns the value of "{lowercased method}_{direction}_schema"
    if that attribute is set, otherwise the value of "{lowercased method}_schema"
    if set, otherwise the value of "schema" if set, otherwise None (an
    attribute holding None counts as not set); it only looks attributes up,
    leaving the request context, the stream and the response body as they
    are; and two methods that differ only in letter case give the same run. *)
Theorem C3_schema_precedence (resource : gmap string PyVal) (m m' d : string)
    (s : State) (Hcase : lower m' = lower m) :
  fst (_get_schema resource m d s) = Ok (resolveSchema_spec resource m d)
  /\ (exists evs, snd (_get_schema resource m d s) = with_events s evs
                 /\ Forall is_getattr evs)
  /\ context (snd (_get_schema resource m d s)) = context s
  /\ bounded_stream (snd (_get_schema resource m d s)) = bounded_stream s
  /\ resp_body (snd (_get_schema resource m d s)) = resp_body s
  /\ _get_schema resource m' d s = _get_schema resource m d s
  /\ _get_schema resource (upper m) d s = _get_schema resource m d s
  /\ _get_schema resource (lower m) d s = _get_schema resource m d s.
Proof.
  rewrite !_get_schema_run. simpl.
  split; [done|].
  split; [exists (lookups resource m d); split; [done|apply lookups_getattr]|].
  do 3 (split; [done|]).
  unfold resolveSchema_spec, lookups.
  by rewrite Hcase, lower_upper, lower_lower.
Qed.

Lemma C3_schema_precedence_witness :
  lower "get" = lower "GET"
  /\ fst (_get_schema {[ "get_schema" := VSchema 0; "schema" := VSchema 1 ]}
            "GET" "response" (fresh EmptyString))
     = Ok (VSchema 0)
  /\ _get_schema {[ "get_schema" := VSchema 0; "schema" := VSchema 1 ]}
       "get" "response" (fresh EmptyString)
     = _get_schema {[ "get_schema" := VSchema 0; "schema" := VSchema 1 ]}
         "GET" "response" (fresh EmptyString).
Proof.
  split; [reflexivity|].
  pose proof (C3_schema_precedence
                {[ "get_schema" := VSchema 0; "schema" := VSchema 1 ]}
                "GET" "get" "response" (fresh EmptyString) eq_refl)
    as (Hval & _ & _ & _ & _ & Hsame & _).
  split; [|exact Hsame].
  rewrite Hval. vm_compute. reflexivity.
Defined.

(** ** [JSONEnforcer] *)

(** The enforcer consults the module constant, not the methods it was
    constructed with: two enforcers behave alike on every request. *)
Lemma JSONEnforcer_ignores_required_methods (methods methods' : list string)
    (req : Request) (s : State) :
  JSONEnforcer_process_request (JSONEnforcer_init methods) req s
  = JSONEnforcer_process_request (JSONEnforcer_init methods') req s.
Proof. reflexivity. Qed.

(** A GET request without content type passes an enforcer constructed for
    GET, and a POST request without content type is refused by an enforcer
    constructed for no method at all. *)
Lemma JSONEnforcer_required_methods_unused :
  JSONEnforcer_process_request (JSONEnforcer_init ["GET"])
    (mkRequest "GET" None None true) (fresh EmptyString)
  = (Ok tt, fresh EmptyString)
  /\ raises HTTPUnsupportedMediaType
       (JSONEnforcer_process_request (JSONEnforcer_init [])
          (mkRequest "POST" None None true) (fresh EmptyString)) = true.
Proof. split; reflexivity. Qed.

(** C1 (as amended): for a JSONEnforcer constructed with the default
    required-methods set (POST, PUT, PATCH), process_request raises
    unsupported-media-type exactly when the client accepts JSON, the
    method is in the set and the content type is absent or does not contain
    "application/json"; when the client does not accept JSON it raises
    not-acceptable instead; it never changes the state. *)
Theorem C1_enforcer_default_methods (self : JSONEnforcer) (req : Request) (s : State)
    (Hdefault : _methods self = JSON_CONTENT_REQUIRED_METHODS) :
  raises HTTPUnsupportedMediaType (JSONEnforcer_process_request self req s)
  = client_accepts_json req && str_in (method req) (_methods self) && lacks_json req
  /\ raises HTTPNotAcceptable (JSONEnforcer_process_request self req s)
     = negb (client_accepts_json req)
  /\ snd (JSONEnforcer_process_request self req s) = s.
Proof.
  rewrite Hdefault. unfold JSONEnforcer_process_request, lacks_json, raises, raise, ret.
  destruct (client_accepts_json req);
    destruct (str_in (method req) JSON_CONTENT_REQUIRED_METHODS);
    destruct (content_type req) as [ct|];
    try destruct (str_contains "application/json" ct);
    repeat split; reflexivity.
Qed.

Lemma C1_enforcer_default_methods_witness :
  _methods (JSONEnforcer_init JSON_CONTENT_REQUIRED_METHODS) = JSON_CONTENT_REQUIRED_METHODS
  /\ raises HTTPUnsupportedMediaType
       (JSONEnforcer_process_request (JSONEnforcer_init JSON_CONTENT_REQUIRED_METHODS)
          (mkRequest "PUT" (Some "mimetype/xml") (Some 3) true) (fresh "abc")) = true.
Proof.
  split; [reflexivity|].
  rewrite (proj1 (C1_enforcer_default_methods
                    (JSONEnforcer_init JSON_CONTENT_REQUIRED_METHODS)
                    (mkRequest "PUT" (Some "mimetype/xml") (Some 3) true)
                    (fresh "abc") eq_refl)).
  reflexivity.
Defined.

(** C1 as stated fails: a POST request without content type whose client
    does not accept JSON has its method in the required set and its content
    type absent, and is answered with not-acceptable, not with
    unsupported-media-type. *)
Lemma C1_counterexample :
  let self := JSONEnforcer_init JSON_CONTENT_REQUIRED_METHODS in
  let req := mkRequest "POST" None (Some 3) false in
  str_in (method req) (_methods self) = true
  /\ lacks_json req = true
  /\ raises HTTPUnsupportedMediaType
       (JSONEnforcer_process_request self req (fresh "abc")) = false
  /\ raises HTTPNotAcceptable
       (JSONEnforcer_process_request self req (fresh "abc")) = true.
Proof. repeat split. Qed.

(** ** [Marshmallow] *)

Section MarshmallowProperties.

Context (MARSHMALLOW_2 : bool).
Context (mimeparse_quality : string -> string -> Outcome Q).
Context (schema_of : nat -> SchemaObj).

Local Abbreviation content_is_expected := (_content_is_expected_type mimeparse_quality).
Local Abbreviation decode := (process_resource MARSHMALLOW_2 mimeparse_quality schema_of).
Local Abbreviation encode_response := (process_response MARSHMALLOW_2 schema_of).

Lemma process_resource_skip (self : Marshmallow) (req : Request)
    (resource : gmap string PyVal) (s : State) :
  content_length req = None \/ content_length req = Some 0
  \/ (_handle_unexpected_content_types self = false
      /\ content_is_expected self (content_type req) = Ok false) ->
  decode self req resource s = (Ok tt, s).
Proof.
  intros Hskip. unfold process_resource.
  destruct (in_None_0 (content_length req)) eqn:Hlen; [done|].
  destruct Hskip as [Hcl|[Hcl|[Hh Hct]]].
  - rewrite Hcl in Hlen. discriminate.
  - rewrite Hcl in Hlen. discriminate.
  - rewrite Hh. unfold bind, lift; simpl. by rewrite Hct.
Qed.

(** C7: when the declared content length is absent or zero, or when
    unexpected content types are not handled (the default) and the
    content type does not match the expected one, process_resource
    returns and leaves the whole state as it is: no attribute lookup and
    no read is added to the trace, the request context is unchanged, and
    so the inbound key holds what it held before (nothing, if it was
    absent). *)
Theorem C7_skip_is_a_no_op (self : Marshmallow) (req : Request)
    (resource : gmap string PyVal) (s : State)
    (Hskip : content_length req = None \/ content_length req = Some 0
             \/ (_handle_unexpected_content_types self = false
                 /\ content_is_expected self (content_type req) = Ok false)) :
  decode self req resource s = (Ok tt, s)
  /\ trace (snd (decode self req resource s)) = trace s
  /\ context (snd (decode self req resource s)) = context s
  /\ (context s !! _req_key self = None ->
      context (snd (decode self req resource s)) !! _req_key self = None).
Proof.
  rewrite (process_resource_skip self req resource s Hskip). done.
Qed.

(** With a handled content type the content-type test of process_resource
    lets the request through and leaves the state as it is. *)
Lemma content_type_gate_open (self : Marshmallow) (req : Request) (s : State) :
  _handle_unexpected_content_types self = true
  \/ content_is_expected self (content_type req) = Ok true ->
  (if negb (_handle_unexpected_content_types self)
   then expected <- lift (content_is_expected self (content_type req)) ;;
        ret (negb expected)
   else ret false) s = (Ok false, s).
Proof.
  intros [->|Hct]; [done|].
  destruct (_handle_unexpected_content_types self); [done|].
  simpl. unfold bind, lift. by rewrite Hct.
Qed.

Lemma TypeError_not_HTTP :
  issubclass TypeError HTTPError = false
  /\ TypeError <> HTTPBadRequest /\ TypeError <> HTTPUnprocessableEntity
  /\ TypeError <> HTTPInternalServerError.
Proof. repeat split; done. Qed.

(** C8: on the inbound path (nonzero length, handled content type) and on
    the outbound path (outbound key present), when the resolved schema is
    not None and not an instance of Schema, the middleware raises a
    TypeError, which is not an HTTP error; up to that point it has only looked
    attributes up: no read, no codec or schema call, no context write. *)
Theorem C8_uninstantiated_schema (self : Marshmallow) (req : Request)
    (resource : gmap string PyVal) (s : State) :
  (handled mimeparse_quality self req ->
   is_None (resolveSchema_spec resource (method req) "request") = false ->
   isinstance_Schema (resolveSchema_spec resource (method req) "request") = false ->
   decode self req resource s
   = (Raise (py_error TypeError MSG_NOT_INSTANTIATED),
      with_events s (lookups resource (method req) "request")))
  /\ (is_Some (context s !! _resp_key self) ->
      is_None (resolveSchema_spec resource (method req) "response") = false ->
      isinstance_Schema (resolveSchema_spec resource (method req) "response") = false ->
      encode_response self req resource s
      = (Raise (py_error TypeError MSG_NOT_INSTANTIATED),
         with_events s (lookups resource (method req) "response")))
  /\ (forall d, Forall is_getattr (lookups resource (method req) d))
  /\ exn_class (py_error TypeError MSG_NOT_INSTANTIATED) = TypeError
  /\ issubclass TypeError HTTPError = false.
Proof.
  split; [|split; [|split; [|done]]].
  - intros [Hlen Hct] Hnn Hni. unfold process_resource. rewrite Hlen.
    unfold bind at 1. rewrite (content_type_gate_open self req s Hct).
    unfold bind at 1. rewrite _get_schema_run.
    by rewrite Hnn, Hni.
  - intros Hkey Hnn Hni. unfold process_response.
    unfold bind at 1. unfold ctx_contains.
    rewrite bool_decide_eq_true_2 by done. simpl.
    unfold bind at 1. rewrite _get_schema_run.
    by rewrite Hnn, Hni.
  - intros d. apply lookups_getattr.
Qed.

(** C9: a content type that mimeparse rejects with a ValueError (and that
    is not literally the expected one) is reported as not matching, so
    with unexpected content types not handled (the default)
    process_resource returns without raising and leaves the state as it
    is; and, mimeparse raising nothing but ValueError, the comparison
    returns a boolean for every content type and for the absent one. *)
Theorem C9_unparsable_content_type (self : Marshmallow) (req : Request)
    (resource : gmap string PyVal) (s : State) (ct : string) (e : Exn)
    (Hct : content_type req = Some ct)
    (Hne : ct <> _expected_content_type self)
    (Hmalformed : mimeparse_quality ct (_expected_content_type self) = Raise e)
    (Hvalue : isinstance e ValueError = true)
    (Hdefault : _handle_unexpected_content_types self = false) :
  content_is_expected self (Some ct) = Ok false
  /\ decode self req resource s = (Ok tt, s)
  /\ ((forall a b e', mimeparse_quality a b = Raise e' -> isinstance e' ValueError = true) ->
      forall content_type : option string,
        exists b : bool, content_is_expected self content_type = Ok b).
Proof.
  assert (Hfalse : content_is_expected self (Some ct) = Ok false).
  { unfold _content_is_expected_type.
    rewrite (proj2 (String.eqb_neq _ _) Hne). by rewrite Hmalformed, Hvalue. }
  split; [done|]. split.
  - apply process_resource_skip. right; right. by rewrite Hct.
  - intros Hcontract [ct'|]; [|by exists true].
    unfold _content_is_expected_type.
    destruct (String.eqb ct' (_expected_content_type self)); [by exists true|].
    destruct (mimeparse_quality ct' (_expected_content_type self)) as [q|e'] eqn:Hq.
    + by eexists.
    + rewrite (Hcontract _ _ _ Hq). by exists false.
Qed.

(** *** Failure never writes the inbound key *)

Lemma stash_inv_events key s0 s evs :
  ~ In (EvCtxSet key) evs -> stash_inv key s0 s -> stash_inv key s0 (with_events s evs).
Proof.
  intros Hevs [Hctx (evs0 & Htrace & Hno)]. split; [done|].
  exists (evs0 ++ evs)%list. simpl. rewrite Htrace, <- app_assoc. split; [done|].
  rewrite in_app_iff. tauto.
Qed.

Lemma preserves_emit key s0 ev :
  ev <> EvCtxSet key -> preserves (stash_inv key s0) (emit ev).
Proof.
  intros Hev s o s' Hs [= <- <-]. apply (stash_inv_events key s0 s [ev]); [|done].
  simpl. intros [?|[]]. congruence.
Qed.

Lemma preserves_get_schema key s0 resource m d :
  preserves (stash_inv key s0) (_get_schema resource m d).
Proof.
  intros s o s' Hs. rewrite _get_schema_run. intros [= <- <-].
  apply stash_inv_events; [apply lookups_no_write|done].
Qed.

Lemma preserves_get_stashed_content key s0 :
  key <> CONTENT_KEY -> preserves (stash_inv key s0) get_stashed_content.
Proof.
  intros Hkey s o s' Hs.
  destruct (get_stashed_content_total s) as [v [(-> & _ & _)|(-> & _ & Hmiss)]];
    intros [= <- <-]; [done|].
  destruct Hs as [[[Hctx Hstream]|Hctx] (evs & Htrace & Hno)].
  - split.
    + right. unfold stashed; simpl. by rewrite Hctx, Hstream.
    + exists (evs ++ [EvRead; EvCtxSet CONTENT_KEY])%list. unfold stashed; simpl.
      rewrite Htrace, <- app_assoc. split; [done|].
      rewrite in_app_iff. simpl. intros [?|[?|[?|[]]]]; [done|done|congruence].
  - rewrite Hctx, lookup_insert_eq in Hmiss. discriminate.
Qed.

Lemma preserves_json_loads key s0 self body :
  preserves (stash_inv key s0) (json_loads self body).
Proof.
  apply preserves_bind; [by apply preserves_emit|intros; apply preserves_lift].
Qed.

Lemma preserves_json_dumps key s0 self v :
  preserves (stash_inv key s0) (json_dumps self v).
Proof.
  apply preserves_bind; [by apply preserves_emit|intros; apply preserves_lift].
Qed.

Lemma preserves_schema_load key s0 sch v :
  preserves (stash_inv key s0) (schema_load schema_of sch v).
Proof.
  destruct sch; try apply preserves_raise.
  apply preserves_bind; [by apply preserves_emit|intros; apply preserves_lift].
Qed.

Ltac keep :=
  repeat first
    [ apply preserves_ret | apply preserves_raise | apply preserves_lift
    | apply preserves_get_schema | apply preserves_json_loads
    | apply preserves_json_dumps | apply preserves_schema_load
    | apply preserves_get_stashed_content; assumption
    | apply preserves_bind; [|intros ?]
    | apply preserves_try; [|intros ? ? ?; repeat case_match; simplify_eq]
    | match goal with
      | |- preserves _ (if ?b then _ else _) => destruct b
      | |- preserves _ (let (_, _) := ?p in _) => destruct p
      end ].

Lemma process_resource_fails_within self req resource s0 :
  _req_key self <> CONTENT_KEY ->
  fails_within (stash_inv (_req_key self) s0) (decode self req resource).
Proof.
  intros Hkey. unfold process_resource.
  destruct (in_None_0 (content_length req)); [apply preserves_fails; keep|].
  apply fails_bind; [keep|]. intros skip.
  destruct skip; [apply preserves_fails; keep|].
  apply fails_bind; [keep|]. intros sch.
  destruct (negb (is_None sch)).
  - destruct (negb (isinstance_Schema sch)); [apply preserves_fails; keep|].
    apply fails_bind; [keep|]. intros parsed.
    apply fails_bind; [keep|]. intros data.
    apply fails_ctx_set.
  - destruct (_force_json self); [|apply preserves_fails; keep].
    apply fails_bind; [keep|]. intros body.
    apply fails_try.
    + apply fails_bind; [keep|]. intros parsed. apply fails_ctx_set.
    + intros e h Hh. repeat case_match; simplify_eq. apply preserves_fails; keep.
Qed.

(** C10: when process_resource raises, whatever the exception, and the
    inbound key is not the reserved key, the request context is the one at
    entry, or the one at entry with the body stashed under the reserved
    key; no call wrote the inbound key, which holds what it held at entry. *)
Theorem C10_failure_writes_no_payload (self : Marshmallow) (req : Request)
    (resource : gmap string PyVal) (s s' : State) (e : Exn)
    (Hkey : _req_key self <> CONTENT_KEY)
    (Hfail : decode self req resource s = (Raise e, s')) :
  payload_unwritten (_req_key self) s s'
  /\ context s' !! _req_key self = context s !! _req_key self.
Proof.
  assert (Hinv : stash_inv (_req_key self) s s').
  { eapply process_resource_fails_within; [done| |exact Hfail].
    split; [by left|]. exists []. rewrite app_nil_r. split; [done|]. intros []. }
  destruct Hinv as [Hctx Htrace].
  assert (Hcases : context s' = context s
                   \/ context s' = <[CONTENT_KEY := VBytes (bounded_stream s)]> (context s))
    by tauto.
  split; [by split|].
  destruct Hcases as [->| ->]; [done|].
  by rewrite lookup_insert_ne.
Qed.

(** *** Generic JSON encoding of the response *)

(** What process_response does with the outbound key present, no schema
    resolved and force_json enabled: it encodes the stored value with the
    codec and stores the text as the response body; the handler is
    [except TypeError], so a TypeError of the codec becomes
    internal-server-error with the fixed title and description, and an
    exception of any other class leaves the handler as it came. *)
Lemma process_response_generic_encode (self : Marshmallow) (req : Request)
    (resource : gmap string PyVal) (s : State) (value : PyVal)
    (Hpresent : context s !! _resp_key self = Some value)
    (Hnoschema : is_None (resolveSchema_spec resource (method req) "response") = true)
    (Hforce : _force_json self = true) :
  let s1 := with_events s (lookups resource (method req) "response" ++ [EvJsonDumps]) in
  match dumps (_json self) value with
  | Ok text =>
      encode_response self req resource s
      = (Ok tt, {| context := context s; bounded_stream := bounded_stream s;
                   resp_body := Some (VStr text);
                   trace := trace s1 ++ [EvBodySet] |})
  | Raise exc =>
      encode_response self req resource s
      = (Raise (if isinstance exc TypeError
                then mkHTTPInternalServerError TITLE_NOT_SERIALIZED MSG_SERVER_SIDE_BUG
                else exc), s1)
  end.
Proof.
  intros s1. subst s1.
  destruct (dumps (_json self) value) as [text|exc] eqn:Hdumps.
  all: unfold process_response.
  all: unfold bind at 1; unfold ctx_contains.
  all: rewrite bool_decide_eq_true_2 by (by rewrite Hpresent); simpl.
  all: unfold bind at 1; rewrite _get_schema_run.
  all: rewrite Hnoschema, Hforce; simpl.
  all: unfold try_except, bind, ctx_getitem, json_dumps, bind, emit, lift,
         set_body, raise; simpl.
  all: rewrite Hpresent, Hdumps; unfold with_events; simpl.
  - by rewrite <- !app_assoc.
  - destruct (isinstance exc TypeError); by rewrite <- !app_assoc.
Qed.

(** *** Exceptions of the schema's load *)

(** Under marshmallow 3, when the schema's load raises an exception that
    is not a ValidationError, process_resource hands the codec a
    dictionary that holds the exception object itself, not its string:
    the outcome is what the codec makes of that object. *)
Lemma process_resource_load_exception (self : Marshmallow) (req : Request)
    (resource : gmap string PyVal) (s s1 : State) (id : nat)
    (body parsed : PyVal) (exc : Exn) :
  MARSHMALLOW_2 = false ->
  handled mimeparse_quality self req ->
  resolveSchema_spec resource (method req) "request" = VSchema id ->
  get_stashed_content (with_events s (lookups resource (method req) "request"))
    = (Ok body, s1) ->
  loads (_json self) body = Ok parsed ->
  sch_load (schema_of id) parsed = Raise exc ->
  isinstance exc ValidationError = false ->
  isinstance exc Exception = true ->
  fst (decode self req resource s)
  = match dumps (_json self) (VDict [("error", exn_object exc)]) with
    | Ok description => Raise (mkHTTPUnprocessableEntity description)
    | Raise e => Raise e
    end.
Proof.
  intros -> [Hlen Hct] Hsch Hget Hloads Hload Hnv Hexc.
  unfold process_resource. rewrite Hlen.
  unfold bind at 1. rewrite (content_type_gate_open self req s Hct).
  unfold bind at 1. rewrite _get_schema_run, Hsch. simpl.
  unfold bind at 1. unfold try_except at 1. unfold bind at 1. rewrite Hget.
  unfold json_loads, bind, emit, lift, try_except, schema_load, json_dumps, raise.
  rewrite Hloads, Hload, Hnv, Hexc.
  by destruct (dumps (_json self) (VDict [("error", exn_object exc)])).
Qed.

End MarshmallowProperties.

(** ** The middleware on concrete requests

    Marshmallow 3, the reference [mimeparse] and the schema objects of
    [Reference.schemas]. *)

(** The scenarios of the test suite: a valid body is loaded through the
    schema and stored under the inbound key; a body that fails validation
    gives unprocessable-entity with the encoded messages; without a schema
    the body is decoded as generic JSON, and a malformed one gives
    bad-request. *)
Example scenario_valid_schema :
  process_resource false ref_quality schemas (Marshmallow_default json_codec)
    (mkRequest "GET" (Some "application/json") (Some 15) true)
    {[ "get_schema" := VSchema 0 ]} (fresh body_foo_test)
  = (Ok tt,
     {| context := {[ "content" := VBytes (bytes_of_string body_foo_test);
                      "json" := VDict [("bar", VStr "test")] ]};
        bounded_stream := []; resp_body := None;
        trace := [EvGetattr "get_request_schema"; EvGetattr "get_schema";
                  EvRead; EvCtxSet "content"; EvJsonLoads; EvSchemaLoad 0;
                  EvCtxSet "json"] |}).
Proof. vm_compute. reflexivity. Qed.

Example scenario_validation_failure :
  fst (process_resource false ref_quality schemas (Marshmallow_default json_codec)
         (mkRequest "GET" (Some "application/json") (Some 30) true)
         {[ "get_schema" := VSchema 0 ]}
         (fresh ("{" +:+ quote "foo" +:+ ": " +:+ quote "test" +:+ ", "
                 +:+ quote "int" +:+ ": " +:+ quote "test" +:+ "}")))
  = Raise (mkHTTPUnprocessableEntity
             ("{" +:+ quote "int" +:+ ": [" +:+ quote "Not a valid integer." +:+ "]}")).
Proof. vm_compute. reflexivity. Qed.

Example scenario_generic_json :
  context (snd (process_resource false ref_quality schemas
                  (Marshmallow_default json_codec) json_post ∅ (fresh body_foo_test)))
    !! "json" = Some (VDict [("foo", VStr "test")])
  /\ raises HTTPBadRequest
       (process_resource false ref_quality schemas (Marshmallow_default json_codec)
          json_post ∅ (fresh body_malformed)) = true.
Proof. split; vm_compute; reflexivity. Qed.

Lemma C7_skip_is_a_no_op_witness :
  process_resource false ref_quality schemas (Marshmallow_default json_codec)
    (mkRequest "POST" (Some "text/csv") (Some 12) true)
    {[ "schema" := VSchema 0 ]} (fresh "1,2,'string'")
  = (Ok tt, fresh "1,2,'string'")
  /\ process_resource false ref_quality schemas (Marshmallow_default json_codec)
       (mkRequest "POST" (Some "application/json") (Some 0) true)
       {[ "schema" := VSchema 0 ]} (fresh body_foo_test)
     = (Ok tt, fresh body_foo_test).
Proof.
  split.
  - apply (C7_skip_is_a_no_op false ref_quality schemas). right; right.
    split; reflexivity.
  - apply (C7_skip_is_a_no_op false ref_quality schemas). right; left. reflexivity.
Defined.

Lemma C8_uninstantiated_schema_witness :
  raises TypeError
    (process_resource false ref_quality schemas (Marshmallow_default json_codec)
       json_post {[ "schema" := VClass "FooSchema" ]} (fresh body_foo_test)) = true
  /\ raises TypeError
       (process_response false schemas (Marshmallow_default json_codec)
          json_post {[ "post_schema" := VClass "FooSchema" ]}
          {| context := {[ "result" := VDict [("bar", VStr "test")] ]};
             bounded_stream := []; resp_body := None; trace := [] |}) = true.
Proof.
  pose proof (C8_uninstantiated_schema false ref_quality schemas
                (Marshmallow_default json_codec) json_post
                {[ "schema" := VClass "FooSchema" ]} (fresh body_foo_test))
    as (Hin & _).
  pose proof (C8_uninstantiated_schema false ref_quality schemas
                (Marshmallow_default json_codec) json_post
                {[ "post_schema" := VClass "FooSchema" ]}
                {| context := {[ "result" := VDict [("bar", VStr "test")] ]};
                   bounded_stream := []; resp_body := None; trace := [] |})
    as (_ & Hout & _).
  split.
  - rewrite Hin; [reflexivity| |reflexivity|reflexivity].
    split; [reflexivity|]. right. reflexivity.
  - rewrite Hout; [reflexivity| |reflexivity|reflexivity].
    eexists. reflexivity.
Defined.

Lemma C9_unparsable_content_type_witness :
  _content_is_expected_type ref_quality (Marshmallow_default json_codec) (Some "garbage")
  = Ok false
  /\ process_resource false ref_quality schemas (Marshmallow_default json_codec)
       (mkRequest "POST" (Some "garbage") (Some 15) true)
       {[ "schema" := VSchema 0 ]} (fresh body_foo_test)
     = (Ok tt, fresh body_foo_test)
  /\ (forall content_type : option string,
        exists b : bool,
          _content_is_expected_type ref_quality (Marshmallow_default json_codec)
            content_type = Ok b).
Proof.
  pose proof (C9_unparsable_content_type false ref_quality schemas
                (Marshmallow_default json_codec)
                (mkRequest "POST" (Some "garbage") (Some 15) true)
                {[ "schema" := VSchema 0 ]} (fresh body_foo_test)
                "garbage" (py_error MimeTypeParseException "Can't parse type")
                eq_refl ltac:(discriminate) eq_refl eq_refl eq_refl)
    as (Hfalse & Hskip & Htotal).
  split; [exact Hfalse|]. split; [exact Hskip|].
  apply Htotal. intros a b e'. unfold ref_quality.
  destruct (parse_mime_type b) as [[rt rst]|]; [destruct (parse_mime_type a) as [[t st]|]|];
    intros [= <-]; reflexivity.
Defined.

Lemma C10_failure_writes_no_payload_witness :
  raises HTTPBadRequest
    (process_resource false ref_quality schemas (Marshmallow_default json_codec)
       json_post ∅ (fresh body_malformed)) = true
  /\ payload_unwritten "json" (fresh body_malformed)
       (snd (process_resource false ref_quality schemas (Marshmallow_default json_codec)
               json_post ∅ (fresh body_malformed))).
Proof.
  split; [reflexivity|].
  destruct (process_resource false ref_quality schemas (Marshmallow_default json_codec)
              json_post ∅ (fresh body_malformed)) as [[u|e] s'] eqn:Hrun.
  - vm_compute in Hrun. discriminate.
  - apply (C10_failure_writes_no_payload false ref_quality schemas
             (Marshmallow_default json_codec) json_post ∅
             (fresh body_malformed) s' e ltac:(discriminate) Hrun).
Defined.

Lemma process_response_generic_encode_witness :
  context (with_result (VSet [VStr "f"; VStr "o"])) !! "result"
  = Some (VSet [VStr "f"; VStr "o"])
  /\ fst (process_response false schemas (Marshmallow_default json_codec)
            json_post ∅ (with_result (VSet [VStr "f"; VStr "o"])))
     = Raise (mkHTTPInternalServerError TITLE_NOT_SERIALIZED MSG_SERVER_SIDE_BUG)
  /\ process_response false schemas (Marshmallow_default json_codec)
       json_post ∅ (with_result (VDict [("bar", VStr "test")]))
     = (Ok tt, {| context := {[ "result" := VDict [("bar", VStr "test")] ]};
                  bounded_stream := [];
                  resp_body := Some (VStr ("{" +:+ quote "bar" +:+ ": " +:+ quote "test" +:+ "}"));
                  trace := [EvGetattr "post_response_schema"; EvGetattr "post_schema";
                            EvGetattr "schema"; EvJsonDumps; EvBodySet] |}).
Proof.
  split; [reflexivity|]. split.
  - pose proof (process_response_generic_encode false schemas (Marshmallow_default json_codec)
                  json_post ∅ (with_result (VSet [VStr "f"; VStr "o"]))
                  (VSet [VStr "f"; VStr "o"]) eq_refl eq_refl eq_refl) as Hrun.
    simpl in Hrun. rewrite Hrun. reflexivity.
  - pose proof (process_response_generic_encode false schemas (Marshmallow_default json_codec)
                  json_post ∅ (with_result (VDict [("bar", VStr "test")]))
                  (VDict [("bar", VStr "test")]) eq_refl eq_refl eq_refl) as Hrun.
    simpl in Hrun. rewrite Hrun. reflexivity.
Defined.

(** C6 on a concrete response: the handler stored a list that contains
    itself, which no JSON text can represent and which the codec refuses
    with a ValueError (circular reference).  With no schema and force_json
    enabled process_response raises that ValueError, not
    internal-server-error: its handler catches TypeError only.  A set,
    which the codec refuses with a TypeError, does give
    internal-server-error with the fixed message, and so does, on the
    schema path, an exception of any class raised by the schema's dumps. *)
Theorem C6_unencodable_value_escapes :
  let self := Marshmallow_default circular_checking_codec in
  let s := with_result self_containing_list in
  context s !! _resp_key self = Some self_containing_list
  /\ resolveSchema_spec ∅ (method json_post) "response" = VNone
  /\ _force_json self = true
  /\ dumps (_json self) self_containing_list
     = Raise (py_error ValueError "Circular reference detected")
  /\ fst (process_response false schemas self json_post ∅ s)
     = Raise (py_error ValueError "Circular reference detected")
  /\ raises HTTPInternalServerError (process_response false schemas self json_post ∅ s)
     = false
  /\ fst (process_response false schemas self json_post ∅
            (with_result (VSet [VStr "f"; VStr "o"])))
     = Raise (mkHTTPInternalServerError TITLE_NOT_SERIALIZED MSG_SERVER_SIDE_BUG)
  /\ raises HTTPInternalServerError
       (process_response false schemas self json_post raising_resource
          (with_result (VDict [("bar", VStr "test")]))) = true.
Proof. repeat split. Qed.

(** C2 on a concrete request: the schema's load raises a RuntimeError;
    process_resource passes the exception object to the codec, which cannot
    encode it, and what is raised is the codec's TypeError, not
    unprocessable-entity.  On the outbound path the same exception of the
    same schema is turned into its string and reported as
    internal-server-error. *)
Theorem C2_load_exception_is_not_stringified :
  let self := Marshmallow_default json_codec in
  let resource : gmap string PyVal := {[ "schema" := VSchema 1 ]} in
  sch_load (schemas 1) (VDict [("foo", VStr "test")])
  = Raise (py_error RuntimeError "boom")
  /\ fst (process_resource false ref_quality schemas self json_post resource
            (fresh body_foo_test))
     = Raise (py_error TypeError "Object is not JSON serializable")
  /\ raises HTTPUnprocessableEntity
       (process_resource false ref_quality schemas self json_post resource
          (fresh body_foo_test)) = false
  /\ fst (process_response false schemas self json_post resource
            (with_result (VDict [("bar", VStr "test")])))
     = Raise (mkHTTPInternalServerError TITLE_NOT_SERIALIZED
                ("{" +:+ quote "error" +:+ ": " +:+ quote "boom" +:+ "}")).
Proof. repeat split. Qed.

(** * Further properties *)

(** ** Rules for [ensures] and [coupled] *)

Section MoreRules.

Context {A B : Type}.

Lemma ensures_of_preserves (I Q : State -> Prop) (m : M A) :
  preserves I m -> (forall s, I s -> Q s) -> ensures I m Q.
Proof. intros Hm Hsub s o s' Hs Hrun. apply Hsub. by apply (Hm _ _ _ Hs Hrun). Qed.

Lemma ensures_bind (I Q : State -> Prop) (m : M A) (k : A -> M B) :
  preserves I m -> (forall s, I s -> Q s) ->
  (forall a, ensures I (k a) Q) -> ensures I (bind m k) Q.
Proof.
  intros Hm Hsub Hk s o s' Hs. unfold bind.
  destruct (m s) as [[a|e] s1] eqn:Hrun.
  - apply (Hk a). by apply (Hm _ _ _ Hs Hrun).
  - intros [= <- <-]. apply Hsub. by apply (Hm _ _ _ Hs Hrun).
Qed.

Lemma ensures_try (I Q : State -> Prop) (m : M A) (handler : Exn -> option (M A)) :
  fails_within I m -> ensures I m Q ->
  (forall e h, handler e = Some h -> preserves I h) ->
  (forall s, I s -> Q s) ->
  ensures I (try_except m handler) Q.
Proof.
  intros Hfail Hm Hh Hsub s o s' Hs. unfold try_except.
  destruct (m s) as [[a|e] s1] eqn:Hrun.
  - intros [= <- <-]. by apply (Hm _ _ _ Hs Hrun).
  - pose proof (Hfail _ _ _ Hs Hrun) as Hs1.
    destruct (handler e) as [h|] eqn:Hhandler.
    + intros Hh'. apply Hsub. by apply (Hh _ _ Hhandler _ _ _ Hs1 Hh').
    + intros [= <- <-]. by apply Hsub.
Qed.

Lemma coupled_ret (R : State -> State -> Prop) (a : A) : coupled R (ret a).
Proof. by intros s s' HR. Qed.

Lemma coupled_raise (R : State -> State -> Prop) (e : Exn) : coupled R (raise (A := A) e).
Proof. by intros s s' HR. Qed.

Lemma coupled_lift (R : State -> State -> Prop) (o : Outcome A) : coupled R (lift o).
Proof. by intros s s' HR. Qed.

Lemma coupled_bind (R : State -> State -> Prop) (m : M A) (k : A -> M B) :
  coupled R m -> (forall a, coupled R (k a)) -> coupled R (bind m k).
Proof.
  intros Hm Hk s s' HR. unfold bind.
  destruct (Hm _ _ HR) as [Hfst Hsnd].
  destruct (m s) as [[a|e] s1], (m s') as [[a'|e'] s1']; simpl in *; simplify_eq.
  - by apply Hk.
  - done.
Qed.

Lemma coupled_try (R : State -> State -> Prop) (m : M A) (handler : Exn -> option (M A)) :
  coupled R m -> (forall e h, handler e = Some h -> coupled R h) ->
  coupled R (try_except m handler).
Proof.
  intros Hm Hh s s' HR. unfold try_except.
  destruct (Hm _ _ HR) as [Hfst Hsnd].
  destruct (m s) as [[a|e] s1], (m s') as [[a'|e'] s1']; simpl in *; simplify_eq.
  - done.
  - destruct (handler e') as [h|] eqn:Hhandler; [by apply (Hh _ _ Hhandler)|done].
Qed.

End MoreRules.

(** ** Invariants of [process_resource] and [process_response] *)

Section Traversal.

Context (MARSHMALLOW_2 : bool).
Context (mimeparse_quality : string -> string -> Outcome Q).
Context (schema_of : nat -> SchemaObj).
Context (I Q : State -> Prop) (self : Marshmallow).

Hypothesis Hsub : forall s, I s -> Q s.
Hypothesis Hgetattr : forall name, preserves I (emit (EvGetattr name)).
Hypothesis Hdumps : preserves I (emit EvJsonDumps).

Lemma inv_get_schema resource m d : preserves I (_get_schema resource m d).
Proof.
  unfold _get_schema, _get_specific_schema, getattr.
  repeat first
    [ apply preserves_ret | apply Hgetattr
    | apply preserves_bind; [|intros ?]
    | match goal with |- preserves _ (if ?b then _ else _) => destruct b end ].
Qed.

Lemma inv_json_dumps v : preserves I (json_dumps self v).
Proof. apply preserves_bind; [apply Hdumps|intros; apply preserves_lift]. Qed.

Section Inbound.

Hypothesis Hloads : preserves I (emit EvJsonLoads).
Hypothesis Hload : forall id, preserves I (emit (EvSchemaLoad id)).
Hypothesis Hstash : preserves I get_stashed_content.
Hypothesis Hset : forall v, ensures I (ctx_set (_req_key self) v) Q.

Lemma inv_json_loads body : preserves I (json_loads self body).
Proof. apply preserves_bind; [apply Hloads|intros; apply preserves_lift]. Qed.

Lemma inv_schema_load sch v : preserves I (schema_load schema_of sch v).
Proof.
  destruct sch; try apply preserves_raise.
  apply preserves_bind; [apply Hload|intros; apply preserves_lift].
Qed.

Ltac hold :=
  repeat first
    [ apply preserves_ret | apply preserves_raise | apply preserves_lift
    | apply inv_get_schema | apply inv_json_dumps | apply inv_json_loads
    | apply inv_schema_load | apply Hstash
    | apply preserves_bind; [|intros ?]
    | apply preserves_try; [|intros ? ? ?; repeat case_match; simplify_eq]
    | match goal with
      | |- preserves _ (if ?b then _ else _) => destruct b
      | |- preserves _ (let (_, _) := ?p in _) => destruct p
      end ].

(** Whatever keeps [I] through the calls of [process_resource], and gets
    from [I] to [Q] by the write of the inbound key, holds of
    [process_resource] as a whole. *)
Lemma process_resource_ensures req resource :
  ensures I (process_resource MARSHMALLOW_2 mimeparse_quality schema_of self req resource) Q.
Proof.
  unfold process_resource.
  destruct (in_None_0 (content_length req)); [apply ensures_of_preserves; [hold|done]|].
  apply ensures_bind; [hold|done|]. intros skip.
  destruct skip; [apply ensures_of_preserves; [hold|done]|].
  apply ensures_bind; [hold|done|]. intros sch.
  destruct (negb (is_None sch)).
  - destruct (negb (isinstance_Schema sch)); [apply ensures_of_preserves; [hold|done]|].
    apply ensures_bind; [hold|done|]. intros parsed.
    apply ensures_bind; [hold|done|]. intros data.
    apply Hset.
  - destruct (_force_json self); [|apply ensures_of_preserves; [hold|done]].
    apply ensures_bind; [hold|done|]. intros body.
    apply ensures_try; [| | |done].
    + apply fails_bind; [hold|]. intros parsed. apply fails_ctx_set.
    + apply ensures_bind; [hold|done|]. intros parsed. apply Hset.
    + intros e h Hh. repeat case_match; simplify_eq. hold.
Qed.

End Inbound.

Section Outbound.

Hypothesis Hsdumps : forall id, preserves I (emit (EvSchemaDumps id)).
Hypothesis Hbody : forall v, ensures I (set_body v) Q.

Lemma inv_ctx_getitem key : preserves I (ctx_getitem key).
Proof.
  intros s o s' Hs. unfold ctx_getitem.
  destruct (context s !! key); intros [= <- <-]; done.
Qed.

Lemma inv_ctx_contains key : preserves I (ctx_contains key).
Proof. intros s o s' Hs [= <- <-]. done. Qed.

Lemma inv_schema_dumps sch v : preserves I (schema_dumps schema_of sch v).
Proof.
  destruct sch; try apply preserves_raise.
  apply preserves_bind; [apply Hsdumps|intros; apply preserves_lift].
Qed.

Ltac hold_out :=
  repeat first
    [ apply preserves_ret | apply preserves_raise | apply preserves_lift
    | apply inv_get_schema | apply inv_json_dumps | apply inv_schema_dumps
    | apply inv_ctx_getitem | apply inv_ctx_contains
    | apply preserves_bind; [|intros ?]
    | apply preserves_try; [|intros ? ? ?; repeat case_match; simplify_eq]
    | match goal with
      | |- preserves _ (if ?b then _ else _) => destruct b
      | |- preserves _ (let (_, _) := ?p in _) => destruct p
      end ].

(** The same for [process_response] and the write of the response body. *)
Lemma process_response_ensures req resource :
  ensures I (process_response MARSHMALLOW_2 schema_of self req resource) Q.
Proof.
  unfold process_response.
  apply ensures_bind; [hold_out|done|]. intros present.
  destruct (negb present); [apply ensures_of_preserves; [hold_out|done]|].
  apply ensures_bind; [hold_out|done|]. intros sch.
  destruct (negb (is_None sch)).
  - destruct (negb (isinstance_Schema sch)); [apply ensures_of_preserves; [hold_out|done]|].
    apply ensures_bind; [hold_out|done|]. intros data.
    apply Hbody.
  - destruct (_force_json self); [|apply ensures_of_preserves; [hold_out|done]].
    apply ensures_try; [| | |done].
    + apply fails_bind; [hold_out|]. intros value.
      apply fails_bind; [hold_out|]. intros encoded.
      intros s e s' _. discriminate.
    + apply ensures_bind; [hold_out|done|]. intros value.
      apply ensures_bind; [hold_out|done|]. intros encoded.
      apply Hbody.
    + intros e h Hh. repeat case_match; simplify_eq. hold_out.
Qed.

(** When [process_response] raises, the write of the response body has not
    happened. *)
Lemma process_response_fails_within req resource :
  fails_within I (process_response MARSHMALLOW_2 schema_of self req resource).
Proof.
  unfold process_response.
  apply fails_bind; [hold_out|]. intros present.
  destruct (negb present); [apply preserves_fails; hold_out|].
  apply fails_bind; [hold_out|]. intros sch.
  destruct (negb (is_None sch)).
  - destruct (negb (isinstance_Schema sch)); [apply preserves_fails; hold_out|].
    apply fails_bind; [hold_out|]. intros data.
    intros s e s' _. discriminate.
  - destruct (_force_json self); [|apply preserves_fails; hold_out].
    apply fails_try.
    + apply fails_bind; [hold_out|]. intros value.
      apply fails_bind; [hold_out|]. intros encoded.
      intros s e s' _. discriminate.
    + intros e h Hh. repeat case_match; simplify_eq. apply preserves_fails; hold_out.
Qed.

End Outbound.

End Traversal.

(** ** What the body looks like to every stage *)

Lemma stash_view_with_events s evs : stash_view (with_events s evs) = stash_view s.
Proof. reflexivity. Qed.

(** [get_stashed_content] returns the view, leaves the view as it is, and
    touches no context key but the reserved one. *)
Lemma get_stashed_content_view s :
  fst (get_stashed_content s) = Ok (stash_view s)
  /\ stash_view (snd (get_stashed_content s)) = stash_view s
  /\ resp_body (snd (get_stashed_content s)) = resp_body s
  /\ (forall k, k <> CONTENT_KEY ->
        context (snd (get_stashed_content s)) !! k = context s !! k).
Proof.
  destruct (get_stashed_content_total s) as [v [(Hget & Hv & Hnn)|(Hget & Hv & Hmiss)]];
    rewrite Hget; simpl.
  - unfold stash_view. by rewrite Hv, Hnn.
  - assert (Hview : stash_view s = VBytes (bounded_stream s)).
    { unfold stash_view. destruct (context s !! CONTENT_KEY) as [w|]; [|done].
      simpl in Hmiss. by subst w. }
    rewrite Hview, Hv. split; [done|]. split.
    + unfold stash_view, stashed; simpl. by rewrite lookup_insert_eq.
    + split; [done|]. intros k Hk. unfold stashed; simpl. by rewrite lookup_insert_ne.
Qed.

Lemma stash_view_ctx_set s key v :
  key <> CONTENT_KEY -> stash_view (snd (ctx_set key v s)) = stash_view s.
Proof. intros Hkey. unfold stash_view; simpl. by rewrite lookup_insert_ne. Qed.

Section Views.

Context (MARSHMALLOW_2 : bool).
Context (mimeparse_quality : string -> string -> Outcome Q).
Context (schema_of : nat -> SchemaObj).

Local Abbreviation decode := (process_resource MARSHMALLOW_2 mimeparse_quality schema_of).
Local Abbreviation encode_response := (process_response MARSHMALLOW_2 schema_of).

Lemma preserves_view_emit s0 ev : preserves (fun s => stash_view s = stash_view s0) (emit ev).
Proof. intros s o s' Hs [= <- <-]. done. Qed.

Lemma preserves_view_stash s0 :
  preserves (fun s => stash_view s = stash_view s0) get_stashed_content.
Proof.
  intros s o s' Hs Hrun. pose proof (get_stashed_content_view s) as (_ & Hview & _).
  rewrite Hrun in Hview. simpl in Hview. congruence.
Qed.

(** X1: the body that get_stashed_content yields is the same before and after
    every stage: EmptyRequestDropper, process_resource (its inbound key
    not being the reserved key) and process_response leave it as it is,
    whatever their outcome, so that a later stage sees the body an earlier
    one saw. *)
Theorem body_view_is_stable (self : Marshmallow) (req : Request)
    (resource : gmap string PyVal) (s : State)
    (Hkey : _req_key self <> CONTENT_KEY) :
  stash_view (snd (EmptyRequestDropper_process_request req s)) = stash_view s
  /\ stash_view (snd (decode self req resource s)) = stash_view s
  /\ stash_view (snd (encode_response self req resource s)) = stash_view s
  /\ fst (get_stashed_content (snd (decode self req resource s))) = Ok (stash_view s).
Proof.
  assert (Hdecode : stash_view (snd (decode self req resource s)) = stash_view s).
  { destruct (decode self req resource s) as [o s'] eqn:Hrun.
    refine (process_resource_ensures MARSHMALLOW_2 mimeparse_quality schema_of
              (fun s' => stash_view s' = stash_view s) (fun s' => stash_view s' = stash_view s)
              self _ _ _ _ _ _ _ req resource s o s' eq_refl Hrun);
      try (intros; apply preserves_view_emit); [done|apply preserves_view_stash|].
    intros v s1 o1 s1' Hs1 [= <- <-].
    rewrite <- Hs1. by apply (stash_view_ctx_set s1). }
  split; [|split; [done|split]].
  - unfold EmptyRequestDropper_process_request.
    destruct (in_None_0 (content_length req)); [done|].
    unfold bind. pose proof (get_stashed_content_view s) as (Hfst & Hview & _).
    destruct (get_stashed_content s) as [[c|e] s1]; simpl in *; [|done].
    by destruct (negb (truthy c)).
  - destruct (encode_response self req resource s) as [o s'] eqn:Hrun.
    refine (process_response_ensures MARSHMALLOW_2 schema_of
              (fun s' => stash_view s' = stash_view s) (fun s' => stash_view s' = stash_view s)
              self _ _ _ _ _ req resource s o s' eq_refl Hrun);
      try (intros; apply preserves_view_emit); [done|].
    intros v s1 o1 s1' Hs1 [= <- <-]. done.
  - rewrite (proj1 (get_stashed_content_view _)). by rewrite Hdecode.
Qed.

End Views.

(** ** Frames *)

Lemma reads_app evs evs' : reads (evs ++ evs') = (reads evs + reads evs')%nat.
Proof. apply count_occ_app. Qed.

Lemma reads_other ev : ev <> EvRead -> reads [ev] = 0%nat.
Proof.
  intros Hev. unfold reads. simpl. by destruct (Event_eq_dec ev EvRead).
Qed.

Section Frames.

Context (MARSHMALLOW_2 : bool).
Context (mimeparse_quality : string -> string -> Outcome Q).
Context (schema_of : nat -> SchemaObj).

Local Abbreviation decode := (process_resource MARSHMALLOW_2 mimeparse_quality schema_of).
Local Abbreviation encode_response := (process_response MARSHMALLOW_2 schema_of).

(** X2: whatever its outcome, process_resource leaves the response body alone
    and changes no context entry other than the reserved key and the
    inbound key. *)
Theorem process_resource_frame (self : Marshmallow) (req : Request)
    (resource : gmap string PyVal) (s : State) :
  resp_body (snd (decode self req resource s)) = resp_body s
  /\ (forall k, k <> CONTENT_KEY -> k <> _req_key self ->
        context (snd (decode self req resource s)) !! k = context s !! k).
Proof.
  pose (I := fun s' : State =>
              resp_body s' = resp_body s
              /\ (forall k, k <> CONTENT_KEY -> k <> _req_key self ->
                    context s' !! k = context s !! k)).
  assert (Hemit : forall ev, preserves I (emit ev)).
  { intros ev s1 o s1' Hs1 [= <- <-]. exact Hs1. }
  destruct (decode self req resource s) as [o s'] eqn:Hrun.
  refine (process_resource_ensures MARSHMALLOW_2 mimeparse_quality schema_of
            I I self _ _ _ _ _ _ _ req resource s o s' _ Hrun);
    try (intros; apply Hemit); [done| | |done].
  - intros s1 o1 s1' Hs1 Hget. destruct Hs1 as [Hb Hc].
    pose proof (get_stashed_content_view s1) as (_ & _ & Hb' & Hc').
    rewrite Hget in Hb', Hc'. simpl in *. split; [congruence|].
    intros k Hk Hk'. rewrite Hc' by done. by apply Hc.
  - intros v s1 o1 s1' Hs1 [= <- <-]. destruct Hs1 as [Hb Hc]. split; [done|].
    intros k Hk Hk'. simpl. rewrite lookup_insert_ne by done. by apply Hc.
Qed.

(** X3: whatever its outcome, process_response leaves the request context and
    the stream as they are and calls nothing but attribute lookups, the
    codec's dumps and the schema's dumps; and when it raises, the response
    body is the one it found. *)
Theorem process_response_frame (self : Marshmallow) (req : Request)
    (resource : gmap string PyVal) (s : State) :
  context (snd (encode_response self req resource s)) = context s
  /\ bounded_stream (snd (encode_response self req resource s)) = bounded_stream s
  /\ (exists evs,
        trace (snd (encode_response self req resource s)) = (trace s ++ evs)%list
        /\ Forall (fun ev => outbound_call ev \/ ev = EvBodySet) evs)
  /\ (forall e s', encode_response self req resource s = (Raise e, s') ->
        resp_body s' = resp_body s).
Proof.
  pose (I := fun s' : State =>
              context s' = context s /\ bounded_stream s' = bounded_stream s
              /\ resp_body s' = resp_body s
              /\ exists evs, trace s' = (trace s ++ evs)%list
                             /\ Forall (fun ev => outbound_call ev \/ ev = EvBodySet) evs).
  pose (Q := fun s' : State =>
              context s' = context s /\ bounded_stream s' = bounded_stream s
              /\ exists evs, trace s' = (trace s ++ evs)%list
                             /\ Forall (fun ev => outbound_call ev \/ ev = EvBodySet) evs).
  assert (Hinit : I s).
  { repeat split. exists []. by rewrite app_nil_r. }
  assert (Hemit : forall ev, outbound_call ev -> preserves I (emit ev)).
  { intros ev Hev s1 o s1' Hs1 [= <- <-].
    destruct Hs1 as (Hc & Hb & Hr & evs & Ht & Hall).
    repeat split; try done. exists (evs ++ [ev])%list. simpl.
    rewrite Ht, <- app_assoc. split; [done|].
    apply Forall_app. split; [done|].
    constructor; [simpl; by left|constructor]. }
  assert (HQ : Q (snd (encode_response self req resource s))).
  { destruct (encode_response self req resource s) as [o s'] eqn:Hrun.
    refine (process_response_ensures MARSHMALLOW_2 schema_of I Q self _ _ _ _ _
              req resource s o s' Hinit Hrun);
      try (intros; apply Hemit; exact Logic.I).
    - intros s1 Hs1. destruct Hs1 as (Hc & Hb & _ & Hev). by repeat split.
    - intros v s1 o1 s1' Hs1 [= <- <-].
      destruct Hs1 as (Hc & Hb & Hr & evs & Ht & Hall).
      repeat split; try done. exists (evs ++ [EvBodySet])%list. simpl.
      rewrite Ht, <- app_assoc. split; [done|].
      apply Forall_app. split; [done|].
      constructor; [simpl; by right|constructor]. }
  destruct HQ as (Hc & Hb & Hev). repeat split; try done.
  intros e s' Hrun.
  pose proof (process_response_fails_within MARSHMALLOW_2 schema_of I self) as Hfail.
  refine (proj1 (proj2 (proj2 (Hfail _ _ _ req resource s e s' Hinit Hrun))));
    intros; apply Hemit; exact Logic.I.
Qed.

(** X4: process_resource reads the transport at most once; it does not read at
    all when the body is already stashed, and as long as it has not read,
    the stream is as it found it. *)
Theorem process_resource_reads_at_most_once (self : Marshmallow) (req : Request)
    (resource : gmap string PyVal) (s : State) :
  exists evs,
    trace (snd (decode self req resource s)) = (trace s ++ evs)%list
    /\ (reads evs <= 1)%nat
    /\ (reads evs = 0%nat ->
        bounded_stream (snd (decode self req resource s)) = bounded_stream s)
    /\ (is_None (default VNone (context s !! CONTENT_KEY)) = false -> reads evs = 0%nat).
Proof.
  pose (I := fun s' : State =>
              exists evs, trace s' = (trace s ++ evs)%list
                /\ ((reads evs = 0%nat
                     /\ context s' !! CONTENT_KEY = context s !! CONTENT_KEY
                     /\ bounded_stream s' = bounded_stream s)
                    \/ (reads evs = 1%nat
                        /\ default VNone (context s !! CONTENT_KEY) = VNone
                        /\ exists v, context s' !! CONTENT_KEY = Some v
                                     /\ is_None v = false))).
  pose (Q := fun s' : State =>
              exists evs, trace s' = (trace s ++ evs)%list
                /\ (reads evs <= 1)%nat
                /\ (reads evs = 0%nat -> bounded_stream s' = bounded_stream s)
                /\ (is_None (default VNone (context s !! CONTENT_KEY)) = false ->
                    reads evs = 0%nat)).
  assert (HIQ : forall s', I s' -> Q s').
  { intros s' Hs'. destruct Hs' as (evs & Ht & [(Hr & Hc & Hb)|(Hr & Hun & Hv)]);
      exists evs.
    - split; [done|]. split; [lia|]. by split.
    - split; [done|]. split; [lia|]. split; [lia|]. rewrite Hun. discriminate. }
  assert (Hemit : forall ev, ev <> EvRead -> preserves I (emit ev)).
  { intros ev Hev s1 o s1' Hs1 [= <- <-]. destruct Hs1 as (evs & Ht & Hcases).
    exists (evs ++ [ev])%list. simpl. rewrite Ht, <- app_assoc. split; [done|].
    rewrite reads_app, (reads_other ev Hev), Nat.add_0_r. exact Hcases. }
  assert (Hinit : I s).
  { exists []. rewrite app_nil_r. split; [done|]. left. by repeat split. }
  destruct (decode self req resource s) as [o s'] eqn:Hrun. simpl.
  refine (process_resource_ensures MARSHMALLOW_2 mimeparse_quality schema_of
            I Q self _ _ _ _ _ _ _ req resource s o s' Hinit Hrun);
    try (intros; apply Hemit; discriminate); [done| |].
  - intros s1 o1 s1' Hs1 Hget. destruct Hs1 as (evs & Ht & Hcases).
    destruct (get_stashed_content_total s1) as [v [(Hg & Hv & Hnn)|(Hg & Hv & Hmiss)]];
      rewrite Hg in Hget; simplify_eq.
    + by exists evs.
    + destruct Hcases as [(Hr & Hc & Hb)|(Hr & Hun & w & Hw & Hwn)].
      * exists (evs ++ [EvRead; EvCtxSet CONTENT_KEY])%list. unfold stashed; simpl.
        rewrite Ht, <- app_assoc. split; [done|]. right.
        rewrite reads_app, Hr. split; [done|]. split; [by rewrite <- Hc|].
        eexists. by rewrite lookup_insert_eq.
      * rewrite Hw in Hmiss. simpl in Hmiss. subst w. discriminate.
  - intros v s1 o1 s1' Hs1 [= <- <-].
    apply HIQ in Hs1. destruct Hs1 as (evs & Ht & Hle & Hzero & Hpresent).
    exists (evs ++ [EvCtxSet (_req_key self)])%list. simpl.
    rewrite Ht, <- app_assoc. split; [done|].
    rewrite reads_app, reads_other, Nat.add_0_r by discriminate. by repeat split.
Qed.

End Frames.

(** ** The outcome depends on the state through the body only *)

Section Coupling.

Context (MARSHMALLOW_2 : bool).
Context (mimeparse_quality : string -> string -> Outcome Q).
Context (schema_of : nat -> SchemaObj).
Context (self : Marshmallow).

Hypothesis Hkey : _req_key self <> CONTENT_KEY.

Local Abbreviation decode := (process_resource MARSHMALLOW_2 mimeparse_quality schema_of).
Local Abbreviation R := (same_view (_req_key self)).

Lemma coupled_emit ev : coupled R (emit ev).
Proof. by intros s s' HR. Qed.

Lemma coupled_get_schema resource m d : coupled R (_get_schema resource m d).
Proof. intros s s' HR. by rewrite !_get_schema_run. Qed.

Lemma coupled_stash : coupled R get_stashed_content.
Proof.
  intros s s' [Hview Hctx].
  pose proof (get_stashed_content_view s) as (Hf & Hv & _ & Hc).
  pose proof (get_stashed_content_view s') as (Hf' & Hv' & _ & Hc').
  split; [congruence|]. split; [congruence|].
  by rewrite Hc, Hc'.
Qed.

Lemma coupled_ctx_set v : coupled R (ctx_set (_req_key self) v).
Proof.
  intros s s' [Hview Hctx]. split; [done|]. split.
  - by rewrite !stash_view_ctx_set.
  - simpl. by rewrite !lookup_insert_eq.
Qed.

Ltac couple :=
  repeat first
    [ apply coupled_ret | apply coupled_raise | apply coupled_lift
    | apply coupled_emit | apply coupled_get_schema | apply coupled_stash
    | apply coupled_ctx_set
    | apply coupled_bind; [|intros ?]
    | apply coupled_try; [|intros ? ? ?; repeat case_match; simplify_eq]
    | match goal with
      | |- coupled _ (if ?b then _ else _) => destruct b
      | |- coupled _ (let (_, _) := ?p in _) => destruct p
      | |- coupled _ (match ?v with VSchema _ => _ | _ => _ end) => destruct v
      end ].

Lemma process_resource_coupled req resource : coupled R (decode self req resource).
Proof.
  unfold process_resource, json_loads, json_dumps, schema_load. couple.
Qed.

(** X5: with an inbound key other than the reserved key, what process_resource
    returns or raises, and what it leaves under the inbound key, depend on
    the state only through the body that get_stashed_content yields and
    through the previous value of the inbound key: two states that agree
    on these give the same outcome and agree on them afterwards. *)
Theorem process_resource_determined_by_body (req : Request)
    (resource : gmap string PyVal) (s s' : State)
    (Hview : stash_view s = stash_view s')
    (Hpayload : context s !! _req_key self = context s' !! _req_key self) :
  fst (decode self req resource s) = fst (decode self req resource s')
  /\ context (snd (decode self req resource s)) !! _req_key self
     = context (snd (decode self req resource s')) !! _req_key self
  /\ stash_view (snd (decode self req resource s))
     = stash_view (snd (decode self req resource s')).
Proof.
  destruct (process_resource_coupled req resource s s' (conj Hview Hpayload))
    as (Hfst & Hv & Hc).
  done.
Qed.

End Coupling.

(** X6: with an inbound key other than the reserved key "content", running
    EmptyRequestDropper before process_resource changes neither what
    process_resource returns or raises nor what it stores under the
    inbound key, although the dropper may already have consumed the
    stream.  (With the reserved key as inbound key the stash of the dropper
    would itself be the stored value.) *)
Theorem dropper_before_process_resource (MARSHMALLOW_2 : bool)
    (mimeparse_quality : string -> string -> Outcome Q)
    (schema_of : nat -> SchemaObj) (self : Marshmallow)
    (Hkey : _req_key self <> CONTENT_KEY)
    (req req' : Request) (resource : gmap string PyVal) (s : State) :
  let decode := process_resource MARSHMALLOW_2 mimeparse_quality schema_of in
  let s1 := snd (EmptyRequestDropper_process_request req' s) in
  fst (decode self req resource s1) = fst (decode self req resource s)
  /\ context (snd (decode self req resource s1)) !! _req_key self
     = context (snd (decode self req resource s)) !! _req_key self.
Proof.
  intros decode s1. subst decode.
  assert (HR : same_view (_req_key self) s1 s).
  { subst s1. unfold EmptyRequestDropper_process_request.
    destruct (in_None_0 (content_length req')); [done|].
    unfold bind. pose proof (get_stashed_content_view s) as (_ & Hv & _ & Hc).
    destruct (get_stashed_content s) as [[c|e] s2]; simpl in *.
    - destruct (negb (truthy c)); simpl; split; auto.
    - split; auto. }
  destruct (process_resource_coupled MARSHMALLOW_2 mimeparse_quality schema_of self Hkey
              req resource s1 s HR) as (Hfst & _ & Hc).
  done.
Qed.

(** X7: running EmptyRequestDropper twice is the same as running it once: the
    second run finds the stash and gives the verdict of the first without
    touching the request. *)
Theorem dropper_twice (req : Request) (s : State) :
  bind (EmptyRequestDropper_process_request req)
       (fun _ => EmptyRequestDropper_process_request req) s
  = EmptyRequestDropper_process_request req s.
Proof.
  unfold EmptyRequestDropper_process_request.
  destruct (in_None_0 (content_length req)) eqn:Hlen.
  - done.
  - unfold bind at 1 2 4.
    destruct (get_stashed_content_total s) as [v [(Hg & Hv & Hnn)|(Hg & -> & Hmiss)]];
      rewrite Hg.
    + destruct (negb (truthy v)) eqn:Ht; [done|].
      unfold ret at 1. unfold bind. rewrite Hg. by rewrite Ht.
    + destruct (negb (truthy (VBytes (bounded_stream s)))) eqn:Ht; [done|].
      unfold ret at 1. unfold bind. rewrite stashed_hit. by rewrite Ht.
Qed.

(** ** The paths of [process_resource] *)

Section Paths.

Context (MARSHMALLOW_2 : bool).
Context (mimeparse_quality : string -> string -> Outcome Q).
Context (schema_of : nat -> SchemaObj).

Local Abbreviation decode := (process_resource MARSHMALLOW_2 mimeparse_quality schema_of).
Local Abbreviation encode_response := (process_response MARSHMALLOW_2 schema_of).

(** Up to the decoding of the body, with a schema instance resolved. *)
Ltac enter_schema Hlen Hct Hsch Hget :=
  unfold process_resource; rewrite Hlen;
  unfold bind at 1; rewrite (content_type_gate_open mimeparse_quality _ _ _ Hct);
  unfold bind at 1; rewrite _get_schema_run, Hsch; simpl;
  unfold bind at 1; unfold try_except at 1; unfold bind at 1; rewrite Hget;
  unfold json_loads, bind, emit, lift, try_except, schema_load, json_dumps, raise,
    ret, ctx_set.

(** X8: under marshmallow 3, on the schema path, when load returns a value it
    is stored under the inbound key and nothing is raised; the codec and
    the schema were each called once after the body was obtained. *)
Theorem process_resource_schema_success (self : Marshmallow) (req : Request)
    (resource : gmap string PyVal) (s s1 : State) (id : nat)
    (body parsed data : PyVal)
    (Hm3 : MARSHMALLOW_2 = false)
    (Hpath : schema_path mimeparse_quality self req resource s id body s1 parsed)
    (Hload : sch_load (schema_of id) parsed = Ok data) :
  decode self req resource s
  = (Ok tt, stored s1 [EvJsonLoads; EvSchemaLoad id] (_req_key self) data).
Proof.
  destruct Hpath as ([Hlen Hct] & Hsch & Hget & Hloads).
  enter_schema Hlen Hct Hsch Hget.
  rewrite Hloads, Hm3. simpl. rewrite Hload. unfold stored. simpl.
  by rewrite <- !app_assoc.
Qed.

(** X9: under marshmallow 3, on the schema path, when load raises a
    ValidationError the codec encodes its messages and process_resource
    raises unprocessable-entity with that text as description (or what the
    codec raised, if it could not encode them); nothing is stored. *)
Theorem process_resource_validation_error (self : Marshmallow) (req : Request)
    (resource : gmap string PyVal) (s s1 : State) (id : nat)
    (body parsed : PyVal) (exc : Exn)
    (Hm3 : MARSHMALLOW_2 = false)
    (Hpath : schema_path mimeparse_quality self req resource s id body s1 parsed)
    (Hload : sch_load (schema_of id) parsed = Raise exc)
    (Hvalidation : isinstance exc ValidationError = true) :
  decode self req resource s
  = (match dumps (_json self) (exn_messages exc) with
     | Ok description => Raise (mkHTTPUnprocessableEntity description)
     | Raise e => Raise e
     end,
     with_events s1 [EvJsonLoads; EvSchemaLoad id; EvJsonDumps]).
Proof.
  destruct Hpath as ([Hlen Hct] & Hsch & Hget & Hloads).
  enter_schema Hlen Hct Hsch Hget.
  rewrite Hloads, Hm3. simpl. rewrite Hload, Hvalidation. unfold with_events. simpl.
  destruct (dumps (_json self) (exn_messages exc)); by rewrite <- !app_assoc.
Qed.

(** X10: under marshmallow 2, on the schema path, load returns a pair of data
    and errors: when the errors are truthy process_resource raises
    unprocessable-entity with their encoding (or what the codec raised) and
    stores nothing, otherwise it stores the data under the inbound key. *)
Theorem process_resource_marshmallow2_result (self : Marshmallow) (req : Request)
    (resource : gmap string PyVal) (s s1 : State) (id : nat)
    (body parsed result data errors : PyVal)
    (Hm2 : MARSHMALLOW_2 = true)
    (Hpath : schema_path mimeparse_quality self req resource s id body s1 parsed)
    (Hload : sch_load (schema_of id) parsed = Ok result)
    (Hpair : unpack2 result = Ok (data, errors)) :
  decode self req resource s
  = if truthy errors
    then (match dumps (_json self) errors with
          | Ok description => Raise (mkHTTPUnprocessableEntity description)
          | Raise e => Raise e
          end,
          with_events s1 [EvJsonLoads; EvSchemaLoad id; EvJsonDumps])
    else (Ok tt, stored s1 [EvJsonLoads; EvSchemaLoad id] (_req_key self) data).
Proof.
  destruct Hpath as ([Hlen Hct] & Hsch & Hget & Hloads).
  enter_schema Hlen Hct Hsch Hget.
  rewrite Hloads, Hm2. simpl. rewrite Hload, Hpair.
  unfold with_events, stored. simpl.
  destruct (truthy errors); [destruct (dumps (_json self) errors)|];
    simpl; by rewrite <- !app_assoc.
Qed.

(** X11: under marshmallow 2 the schema's load is not guarded: whatever it
    raises, a ValidationError included, leaves process_resource as it is,
    and nothing is stored. *)
Theorem process_resource_marshmallow2_exception (self : Marshmallow) (req : Request)
    (resource : gmap string PyVal) (s s1 : State) (id : nat)
    (body parsed : PyVal) (exc : Exn)
    (Hm2 : MARSHMALLOW_2 = true)
    (Hpath : schema_path mimeparse_quality self req resource s id body s1 parsed)
    (Hload : sch_load (schema_of id) parsed = Raise exc) :
  decode self req resource s
  = (Raise exc, with_events s1 [EvJsonLoads; EvSchemaLoad id]).
Proof.
  destruct Hpath as ([Hlen Hct] & Hsch & Hget & Hloads).
  enter_schema Hlen Hct Hsch Hget.
  rewrite Hloads, Hm2. simpl. rewrite Hload. unfold with_events. simpl.
  by rewrite <- !app_assoc.
Qed.

(** X12: on the path with a schema, when the codec cannot decode the body:
    a UnicodeDecodeError gives bad-request "Body was not encoded as UTF-8",
    an error of the codec's JSONDecodeError class gives bad-request
    "Request must be valid JSON", and any other exception (a plain
    ValueError too) is raised as it is; the schema is not called. *)
Theorem process_resource_schema_decode_error (self : Marshmallow) (req : Request)
    (resource : gmap string PyVal) (s s1 : State) (id : nat)
    (body : PyVal) (exc : Exn)
    (Hhandled : handled mimeparse_quality self req)
    (Hschema : resolveSchema_spec resource (method req) "request" = VSchema id)
    (Hbody : get_stashed_content (with_events s (lookups resource (method req) "request"))
             = (Ok body, s1))
    (Hloads : loads (_json self) body = Raise exc) :
  decode self req resource s
  = (Raise (if isinstance exc UnicodeDecodeError
            then mkHTTPBadRequest (Some "Body was not encoded as UTF-8") None
            else if isinstance exc (codec_JSONDecodeError (_json self))
                 then mkHTTPBadRequest (Some "Request must be valid JSON") None
                 else exc),
     with_events s1 [EvJsonLoads]).
Proof.
  destruct Hhandled as [Hlen Hct].
  enter_schema Hlen Hct Hschema Hbody.
  rewrite Hloads.
  destruct (isinstance exc UnicodeDecodeError); [done|].
  by destruct (isinstance exc (codec_JSONDecodeError (_json self))).
Qed.

(** X13: on the path without schema and with the generic fallback, the decoded
    body is stored under the inbound key; when the codec raises a
    ValueError of any kind (JSONDecodeError and UnicodeDecodeError are such)
    process_resource raises bad-request with the fixed description, and any
    other exception is raised as it is. *)
Theorem process_resource_generic (self : Marshmallow) (req : Request)
    (resource : gmap string PyVal) (s s1 : State) (body : PyVal)
    (Hpath : generic_path mimeparse_quality self req resource s body s1) :
  decode self req resource s
  = match loads (_json self) body with
    | Ok parsed => (Ok tt, stored s1 [EvJsonLoads] (_req_key self) parsed)
    | Raise exc =>
        (Raise (if isinstance exc ValueError || isinstance exc UnicodeDecodeError
                then mkHTTPBadRequest None (Some MSG_COULD_NOT_DECODE)
                else exc),
         with_events s1 [EvJsonLoads])
    end.
Proof.
  destruct Hpath as ([Hlen Hct] & Hnone & Hforce & Hget).
  unfold process_resource. rewrite Hlen.
  unfold bind at 1. rewrite (content_type_gate_open mimeparse_quality _ _ _ Hct).
  unfold bind at 1. rewrite _get_schema_run, Hnone, Hforce. simpl.
  unfold bind at 1. rewrite Hget.
  unfold try_except, json_loads, bind, emit, lift, raise, ctx_set, stored, with_events.
  simpl.
  destruct (loads (_json self) body) as [parsed|exc]; simpl.
  - by rewrite <- !app_assoc.
  - by destruct (isinstance exc ValueError || isinstance exc UnicodeDecodeError).
Qed.

(** X14: without a schema and with the fallback disabled, process_resource and
    process_response (the outbound key being present) only look the three
    attributes up: no read, no codec call, no write. *)
Theorem no_schema_no_fallback (self : Marshmallow) (req : Request)
    (resource : gmap string PyVal) (s : State)
    (Hforce : _force_json self = false) :
  (handled mimeparse_quality self req ->
   is_None (resolveSchema_spec resource (method req) "request") = true ->
   decode self req resource s
   = (Ok tt, with_events s (lookups resource (method req) "request")))
  /\ (is_Some (context s !! _resp_key self) ->
      is_None (resolveSchema_spec resource (method req) "response") = true ->
      encode_response self req resource s
      = (Ok tt, with_events s (lookups resource (method req) "response"))).
Proof.
  split.
  - intros [Hlen Hct] Hnone. unfold process_resource. rewrite Hlen.
    unfold bind at 1. rewrite (content_type_gate_open mimeparse_quality _ _ _ Hct).
    unfold bind at 1. by rewrite _get_schema_run, Hnone, Hforce.
  - intros Hpresent Hnone. unfold process_response.
    unfold bind at 1. unfold ctx_contains.
    rewrite bool_decide_eq_true_2 by done. simpl.
    unfold bind at 1. by rewrite _get_schema_run, Hnone, Hforce.
Qed.

End Paths.

(** ** The paths of [process_response] *)

Section ResponsePaths.

Context (MARSHMALLOW_2 : bool).
Context (schema_of : nat -> SchemaObj).

Local Abbreviation encode_response := (process_response MARSHMALLOW_2 schema_of).

Ltac enter_response Hm Hpresent Hsch :=
  unfold process_response; rewrite Hm;
  unfold bind at 1; unfold ctx_contains;
  rewrite bool_decide_eq_true_2 by (by rewrite Hpresent); simpl;
  unfold bind at 1; rewrite _get_schema_run, Hsch; simpl;
  unfold try_except, bind, ctx_getitem, schema_dumps, json_dumps, emit, lift,
    set_body, raise, ret; simpl;
  rewrite Hpresent.

(** X15: when the outbound key is absent process_response does nothing at all:
    no attribute is looked up and no schema is checked, so that even a
    resource with an uninstantiated schema raises nothing. *)
Theorem process_response_without_result (self : Marshmallow) (req : Request)
    (resource : gmap string PyVal) (s : State)
    (Habsent : context s !! _resp_key self = None) :
  encode_response self req resource s = (Ok tt, s).
Proof.
  unfold process_response. unfold bind at 1. unfold ctx_contains.
  rewrite bool_decide_eq_false_2; [done|].
  rewrite Habsent. by intros [? ?].
Qed.

(** X16: under marshmallow 3, with a schema instance resolved, the text the
    schema's dumps returns becomes the response body as it is, without a
    call of the codec. *)
Theorem process_response_schema_success (self : Marshmallow) (req : Request)
    (resource : gmap string PyVal) (s : State) (id : nat) (value data : PyVal)
    (Hm3 : MARSHMALLOW_2 = false)
    (Hpresent : context s !! _resp_key self = Some value)
    (Hschema : resolveSchema_spec resource (method req) "response" = VSchema id)
    (Hdumps : sch_dumps (schema_of id) value = Ok data) :
  encode_response self req resource s
  = (Ok tt, responded s (lookups resource (method req) "response" ++ [EvSchemaDumps id]) data).
Proof.
  enter_response Hm3 Hpresent Hschema.
  rewrite Hdumps. unfold responded, with_events. simpl.
  by rewrite <- !app_assoc.
Qed.

(** X17: under marshmallow 3, when the schema's dumps raises an exception (any
    subclass of Exception) process_response raises internal-server-error
    titled "Could not serialize response" whose description is the encoded
    messages of a ValidationError, or else the encoding of
    {"error": str(exc)}; if the codec cannot encode that, what the codec
    raised; an exception outside Exception is raised as it is.  The
    response body is not set. *)
Theorem process_response_schema_failure (self : Marshmallow) (req : Request)
    (resource : gmap string PyVal) (s : State) (id : nat) (value : PyVal) (exc : Exn)
    (Hm3 : MARSHMALLOW_2 = false)
    (Hpresent : context s !! _resp_key self = Some value)
    (Hschema : resolveSchema_spec resource (method req) "response" = VSchema id)
    (Hdumps : sch_dumps (schema_of id) value = Raise exc) :
  let called := (lookups resource (method req) "response" ++ [EvSchemaDumps id])%list in
  encode_response self req resource s
  = if isinstance exc Exception
    then (match dumps (_json self)
                  (if isinstance exc ValidationError then exn_messages exc
                   else VDict [("error", VStr (exn_text exc))]) with
          | Ok description =>
              Raise (mkHTTPInternalServerError TITLE_NOT_SERIALIZED description)
          | Raise e => Raise e
          end,
          with_events s (called ++ [EvJsonDumps]))
    else (Raise exc, with_events s called).
Proof.
  intros called. subst called.
  assert (Hsub : isinstance exc ValidationError = true -> isinstance exc Exception = true).
  { unfold isinstance. by destruct (exn_class exc). }
  enter_response Hm3 Hpresent Hschema.
  rewrite Hdumps. unfold with_events. simpl.
  destruct (isinstance exc ValidationError) eqn:Hv.
  - rewrite (Hsub eq_refl).
    destruct (dumps (_json self) (exn_messages exc)); simpl; by rewrite <- !app_assoc.
  - destruct (isinstance exc Exception).
    + destruct (dumps (_json self) (VDict [("error", VStr (exn_text exc))])); simpl;
        by rewrite <- !app_assoc.
    + by rewrite <- !app_assoc.
Qed.

(** X18: under marshmallow 2 the schema's dumps returns a pair of data and
    errors: truthy errors give internal-server-error with their encoding
    (or what the codec raised), else the data become the response body; an
    exception of dumps is not caught. *)
Theorem process_response_marshmallow2 (self : Marshmallow) (req : Request)
    (resource : gmap string PyVal) (s : State) (id : nat) (value : PyVal)
    (Hm2 : MARSHMALLOW_2 = true)
    (Hpresent : context s !! _resp_key self = Some value)
    (Hschema : resolveSchema_spec resource (method req) "response" = VSchema id) :
  let called := (lookups resource (method req) "response" ++ [EvSchemaDumps id])%list in
  encode_response self req resource s
  = match sch_dumps (schema_of id) value with
    | Raise exc => (Raise exc, with_events s called)
    | Ok result =>
        match unpack2 result with
        | Raise e => (Raise e, with_events s called)
        | Ok (data, errors) =>
            if truthy errors
            then (match dumps (_json self) errors with
                  | Ok description =>
                      Raise (mkHTTPInternalServerError TITLE_NOT_SERIALIZED description)
                  | Raise e => Raise e
                  end,
                  with_events s (called ++ [EvJsonDumps]))
            else (Ok tt, responded s called data)
        end
    end.
Proof.
  intros called. subst called.
  enter_response Hm2 Hpresent Hschema.
  unfold with_events, responded. simpl.
  destruct (sch_dumps (schema_of id) value) as [result|exc]; simpl;
    [|by rewrite <- !app_assoc].
  destruct (unpack2 result) as [[data errors]|e]; simpl; [|by rewrite <- !app_assoc].
  destruct (truthy errors); [destruct (dumps (_json self) errors)|];
    simpl; by rewrite <- !app_assoc.
Qed.

End ResponsePaths.

(** ** Content types *)

Section ContentTypes.

Context (MARSHMALLOW_2 : bool).
Context (schema_of : nat -> SchemaObj).

(** With unexpected content types handled, process_resource looks neither
    at the content type nor at mimeparse: the run is the same for every
    content type and every mimeparse. *)
Lemma handled_types_ignore_the_header (self : Marshmallow) (req : Request)
    (resource : gmap string PyVal) (s : State) (ct : option string)
    (mimeparse_quality mimeparse_quality' : string -> string -> Outcome Q)
    (Hall : _handle_unexpected_content_types self = true) :
  process_resource MARSHMALLOW_2 mimeparse_quality' schema_of self
    (with_content_type req ct) resource s
  = process_resource MARSHMALLOW_2 mimeparse_quality schema_of self req resource s.
Proof. unfold process_resource. by rewrite Hall. Qed.

(** X19: a request without content type, or with exactly the expected one, is
    processed as if every content type were handled, and mimeparse is not
    consulted: the run is the same for every mimeparse, one that raises on
    every input included. *)
Theorem absent_or_exact_type_is_expected (self : Marshmallow) (req : Request)
    (resource : gmap string PyVal) (s : State)
    (mimeparse_quality mimeparse_quality' : string -> string -> Outcome Q)
    (Hct : content_type req = None
           \/ content_type req = Some (_expected_content_type self)) :
  _content_is_expected_type mimeparse_quality self (content_type req) = Ok true
  /\ process_resource MARSHMALLOW_2 mimeparse_quality schema_of self req resource s
     = process_resource MARSHMALLOW_2 mimeparse_quality' schema_of (handling_all self)
         req resource s.
Proof.
  assert (Hexp : _content_is_expected_type mimeparse_quality self (content_type req)
                 = Ok true).
  { destruct Hct as [-> | ->]; [done|].
    unfold _content_is_expected_type. by rewrite String.eqb_refl. }
  split; [done|].
  unfold process_resource. rewrite Hexp.
  destruct (in_None_0 (content_length req)); [done|].
  destruct self as [rk pk fj js ect h]. simpl.
  by destruct h.
Qed.

End ContentTypes.

(** ** Direction-specific schemas *)

Lemma append_inj_l a x y : a +:+ x = a +:+ y -> x = y.
Proof. induction a as [|c a IH]; simpl; [done|]. intros [= H]. by apply IH. Qed.

Lemma length_append a b :
  String.length (a +:+ b) = (String.length a + String.length b)%nat.
Proof. induction a as [|c a IH]; simpl; [done|]. by rewrite IH. Qed.

Lemma attribute_set_insert_ne resource name name' v :
  name <> name' ->
  attribute_set (<[name := v]> resource) name' = attribute_set resource name'.
Proof. intros Hne. unfold attribute_set. by rewrite lookup_insert_ne. Qed.

(** X20: a schema set for one direction only is not used for the other:
    setting "{method}_response_schema" on a resource changes nothing of the
    resolution for requests, and setting "{method}_request_schema" nothing
    of the resolution for responses. *)
Theorem direction_specific_schema_is_isolated (resource : gmap string PyVal)
    (m : string) (v : PyVal) (s : State) :
  _get_schema (<[lower m +:+ "_response_schema" := v]> resource) m "request" s
  = _get_schema resource m "request" s
  /\ _get_schema (<[lower m +:+ "_request_schema" := v]> resource) m "response" s
     = _get_schema resource m "response" s.
Proof.
  assert (Hgeneric : forall x, String.length x = 16%nat \/ String.length x = 15%nat ->
                               lower m +:+ x <> "schema").
  { intros x Hx Heq. apply (f_equal String.length) in Heq.
    rewrite length_append in Heq. simpl in Heq. lia. }
  rewrite !_get_schema_run. unfold resolveSchema_spec, lookups. simpl.
  split.
  - rewrite !attribute_set_insert_ne; [done| | |].
    + by apply Hgeneric; left.
    + intros Heq. by apply append_inj_l in Heq.
    + intros Heq. by apply append_inj_l in Heq.
  - rewrite !attribute_set_insert_ne; [done| | |].
    + by apply Hgeneric; right.
    + intros Heq. by apply append_inj_l in Heq.
    + intros Heq. by apply append_inj_l in Heq.
Qed.

(** X21: _get_specific_schema never falls back to the generic schema: setting
    or changing the "schema" attribute of a resource changes nothing of
    what it returns, which is None when neither method attribute is set. *)
Theorem specific_schema_ignores_generic (resource : gmap string PyVal)
    (m d : string) (v : PyVal) (s : State) :
  _get_specific_schema (<["schema" := v]> resource) m d s
  = _get_specific_schema resource m d s
  /\ (attribute_set resource (lower m +:+ "_" +:+ d +:+ "_schema") = None ->
      attribute_set resource (lower m +:+ "_schema") = None ->
      fst (_get_specific_schema (<["schema" := v]> resource) m d s) = Ok VNone).
Proof.
  assert (H1 : "schema" <> lower m +:+ "_" +:+ d +:+ "_schema").
  { intros Heq. apply (f_equal String.length) in Heq.
    rewrite !length_append in Heq. simpl in Heq. lia. }
  assert (H2 : "schema" <> lower m +:+ "_schema").
  { intros Heq. apply (f_equal String.length) in Heq.
    rewrite !length_append in Heq. simpl in Heq. lia. }
  assert (Hsame : _get_specific_schema (<["schema" := v]> resource) m d s
                  = _get_specific_schema resource m d s).
  { unfold _get_specific_schema, getattr, bind, ret, emit.
    by rewrite !lookup_insert_ne. }
  split; [done|].
  intros Hfirst Hsecond. rewrite Hsame.
  apply attribute_set_None in Hfirst, Hsecond.
  unfold _get_specific_schema, getattr, bind, ret, emit. simpl.
  rewrite Hfirst. simpl. by rewrite Hsecond.
Qed.

Lemma specific_schema_ignores_generic_witness :
  fst (_get_specific_schema {[ "schema" := VSchema 0 ]} "get" "request" (fresh EmptyString))
  = Ok VNone.
Proof.
  apply (proj2 (specific_schema_ignores_generic ∅ "get" "request" (VSchema 0)
                  (fresh EmptyString)));
    reflexivity.
Defined.

(** ** The enforcer, whatever it was constructed with *)

(** X22: for every JSONEnforcer, whatever methods it was constructed with,
    process_request leaves the request as it is and decides on the module's
    POST, PUT and PATCH: it raises not-acceptable exactly when the client
    does not accept JSON, unsupported-media-type exactly when the client
    accepts JSON, the method is one of the three and the content type is
    absent or lacks "application/json", and returns otherwise. *)
Theorem enforcer_decides_on_module_methods (self : JSONEnforcer) (req : Request)
    (s : State) :
  snd (JSONEnforcer_process_request self req s) = s
  /\ raises HTTPNotAcceptable (JSONEnforcer_process_request self req s)
     = negb (client_accepts_json req)
  /\ raises HTTPUnsupportedMediaType (JSONEnforcer_process_request self req s)
     = client_accepts_json req
       && str_in (method req) ["POST"; "PUT"; "PATCH"] && lacks_json req
  /\ (fst (JSONEnforcer_process_request self req s) = Ok tt
      <-> client_accepts_json req = true
          /\ (str_in (method req) ["POST"; "PUT"; "PATCH"] && lacks_json req) = false).
Proof.
  unfold JSONEnforcer_process_request, lacks_json, raises, raise, ret,
    JSON_CONTENT_REQUIRED_METHODS.
  destruct (client_accepts_json req);
    destruct (str_in (method req) ["POST"; "PUT"; "PATCH"]);
    destruct (content_type req) as [ct|];
    try destruct (str_contains "application/json" ct);
    simpl; repeat split; try done; intros [? ?]; done.
Qed.

(** ** The further properties on concrete requests *)

Lemma body_view_is_stable_witness :
  _req_key (Marshmallow_default json_codec) <> CONTENT_KEY
  /\ fst (get_stashed_content
            (snd (process_resource false ref_quality schemas
                    (Marshmallow_default json_codec) json_post foo_resource
                    (fresh body_foo_test))))
     = Ok foo_body.
Proof.
  split; [discriminate|].
  apply (body_view_is_stable false ref_quality schemas (Marshmallow_default json_codec)
           json_post foo_resource (fresh body_foo_test) ltac:(discriminate)).
Defined.

Lemma process_resource_determined_by_body_witness :
  stash_view (stashed (fresh body_malformed)) = stash_view (fresh body_malformed)
  /\ fst (process_resource false ref_quality schemas (Marshmallow_default json_codec)
            json_post foo_resource (stashed (fresh body_malformed)))
     = fst (process_resource false ref_quality schemas (Marshmallow_default json_codec)
              json_post foo_resource (fresh body_malformed)).
Proof.
  split; [reflexivity|].
  apply (process_resource_determined_by_body false ref_quality schemas
           (Marshmallow_default json_codec) ltac:(discriminate)
           json_post foo_resource (stashed (fresh body_malformed)) (fresh body_malformed)
           eq_refl eq_refl).
Defined.

Lemma dropper_before_process_resource_witness :
  _req_key (Marshmallow_default json_codec) <> CONTENT_KEY
  /\ bounded_stream (snd (EmptyRequestDropper_process_request json_post
                            (fresh body_foo_test))) = []
  /\ context (snd (process_resource false ref_quality schemas
                     (Marshmallow_default json_codec) json_post foo_resource
                     (snd (EmptyRequestDropper_process_request json_post
                             (fresh body_foo_test))))) !! "json"
     = Some (VDict [("bar", VStr "test")]).
Proof.
  split; [discriminate|]. split; [reflexivity|].
  refine (eq_trans (proj2 (dropper_before_process_resource false ref_quality schemas
                             (Marshmallow_default json_codec) ltac:(discriminate)
                             json_post json_post foo_resource (fresh body_foo_test))) _).
  reflexivity.
Defined.

Lemma foo_schema_path :
  schema_path ref_quality (Marshmallow_default json_codec) json_post foo_resource
    (fresh body_foo_test) 0 foo_body (foo_stashed foo_resource) foo_parsed.
Proof.
  split; [split; [reflexivity|right; reflexivity]|]. repeat split.
Defined.

Lemma raising_schema_path :
  schema_path ref_quality (Marshmallow_default json_codec) json_post raising_resource
    (fresh body_foo_test) 1 foo_body (foo_stashed raising_resource) foo_parsed.
Proof.
  split; [split; [reflexivity|right; reflexivity]|]. repeat split.
Defined.

Lemma process_resource_schema_success_witness :
  process_resource false ref_quality schemas (Marshmallow_default json_codec)
    json_post foo_resource (fresh body_foo_test)
  = (Ok tt, stored (foo_stashed foo_resource) [EvJsonLoads; EvSchemaLoad 0] "json"
              (VDict [("bar", VStr "test")])).
Proof.
  apply (process_resource_schema_success false ref_quality schemas
           (Marshmallow_default json_codec) json_post foo_resource
           (fresh body_foo_test) (foo_stashed foo_resource) 0 foo_body foo_parsed
           (VDict [("bar", VStr "test")]) eq_refl foo_schema_path eq_refl).
Defined.

Lemma process_resource_validation_error_witness :
  fst (process_resource false ref_quality schemas (Marshmallow_default json_codec)
         json_post foo_resource
         (fresh ("{" +:+ quote "int" +:+ ": " +:+ quote "x" +:+ "}")))
  = Raise (mkHTTPUnprocessableEntity
             ("{" +:+ quote "int" +:+ ": [" +:+ quote "Not a valid integer." +:+ "]}")).
Proof.
  rewrite (process_resource_validation_error false ref_quality schemas
             (Marshmallow_default json_codec) json_post foo_resource
             (fresh ("{" +:+ quote "int" +:+ ": " +:+ quote "x" +:+ "}"))
             (stashed (with_events (fresh ("{" +:+ quote "int" +:+ ": " +:+ quote "x" +:+ "}"))
                         (lookups foo_resource "POST" "request")))
             0 (VBytes (bytes_of_string ("{" +:+ quote "int" +:+ ": " +:+ quote "x" +:+ "}")))
             (VDict [("int", VStr "x")])
             (mkValidationError (VDict [("int", VList [VStr "Not a valid integer."])]))
             eq_refl).
  - reflexivity.
  - split; [split; [reflexivity|right; reflexivity]|]. repeat split.
  - reflexivity.
  - reflexivity.
Defined.

Lemma process_resource_marshmallow2_result_witness :
  process_resource true ref_quality schemas2 (Marshmallow_default json_codec)
    json_post foo_resource (fresh body_foo_test)
  = (Ok tt, stored (foo_stashed foo_resource) [EvJsonLoads; EvSchemaLoad 0] "json"
              (VDict [("bar", VStr "test")])).
Proof.
  apply (process_resource_marshmallow2_result true ref_quality schemas2
           (Marshmallow_default json_codec) json_post foo_resource
           (fresh body_foo_test) (foo_stashed foo_resource) 0 foo_body foo_parsed
           (VTuple [VDict [("bar", VStr "test")]; VDict []])
           (VDict [("bar", VStr "test")]) (VDict []) eq_refl foo_schema_path
           eq_refl eq_refl).
Defined.

Lemma process_resource_marshmallow2_exception_witness :
  process_resource true ref_quality schemas2 (Marshmallow_default json_codec)
    json_post raising_resource (fresh body_foo_test)
  = (Raise (py_error RuntimeError "boom"),
     with_events (foo_stashed raising_resource) [EvJsonLoads; EvSchemaLoad 1]).
Proof.
  apply (process_resource_marshmallow2_exception true ref_quality schemas2
           (Marshmallow_default json_codec) json_post raising_resource
           (fresh body_foo_test) (foo_stashed raising_resource) 1 foo_body foo_parsed
           (py_error RuntimeError "boom") eq_refl raising_schema_path eq_refl).
Defined.

Lemma process_resource_schema_decode_error_witness :
  fst (process_resource false ref_quality schemas (Marshmallow_default json_codec)
         json_post foo_resource (fresh body_malformed))
  = Raise (mkHTTPBadRequest (Some "Request must be valid JSON") None).
Proof.
  rewrite (process_resource_schema_decode_error false ref_quality schemas
             (Marshmallow_default json_codec) json_post foo_resource
             (fresh body_malformed)
             (stashed (with_events (fresh body_malformed)
                         (lookups foo_resource "POST" "request")))
             0 (VBytes (bytes_of_string body_malformed))
             (py_error JSONDecodeError "Expecting value")).
  - reflexivity.
  - split; [reflexivity|right; reflexivity].
  - reflexivity.
  - reflexivity.
  - reflexivity.
Defined.

Lemma process_resource_generic_witness :
  fst (process_resource false ref_quality schemas (Marshmallow_default json_codec)
         json_post ∅ (fresh body_malformed))
  = Raise (mkHTTPBadRequest None (Some MSG_COULD_NOT_DECODE)).
Proof.
  rewrite (process_resource_generic false ref_quality schemas
             (Marshmallow_default json_codec) json_post ∅ (fresh body_malformed)
             (stashed (with_events (fresh body_malformed) (lookups ∅ "POST" "request")))
             (VBytes (bytes_of_string body_malformed))).
  - reflexivity.
  - split; [split; [reflexivity|right; reflexivity]|]. repeat split.
Defined.

Lemma no_schema_no_fallback_witness :
  _force_json (Marshmallow_no_fallback json_codec) = false
  /\ process_resource false ref_quality schemas (Marshmallow_no_fallback json_codec)
       json_post ∅ (fresh body_foo_test)
     = (Ok tt, with_events (fresh body_foo_test) (lookups ∅ "POST" "request"))
  /\ process_response false schemas (Marshmallow_no_fallback json_codec)
       json_post ∅ (with_result foo_parsed)
     = (Ok tt, with_events (with_result foo_parsed) (lookups ∅ "POST" "response")).
Proof.
  split; [reflexivity|].
  pose proof (no_schema_no_fallback false ref_quality schemas
                (Marshmallow_no_fallback json_codec) json_post ∅
                (fresh body_foo_test) eq_refl) as [Hin _].
  pose proof (no_schema_no_fallback false ref_quality schemas
                (Marshmallow_no_fallback json_codec) json_post ∅
                (with_result foo_parsed) eq_refl) as [_ Hout].
  split.
  - apply Hin; [|reflexivity]. split; [reflexivity|right; reflexivity].
  - apply Hout; [|reflexivity]. eexists. reflexivity.
Defined.

Lemma process_response_without_result_witness :
  process_response false schemas (Marshmallow_default json_codec) json_post
    {[ "schema" := VClass "FooSchema" ]} (fresh EmptyString)
  = (Ok tt, fresh EmptyString).
Proof.
  apply (process_response_without_result false schemas (Marshmallow_default json_codec)
           json_post {[ "schema" := VClass "FooSchema" ]} (fresh EmptyString) eq_refl).
Defined.

Lemma process_response_schema_success_witness :
  resp_body (snd (process_response false schemas (Marshmallow_default json_codec)
                    json_post foo_resource (with_result (VDict [("bar", VStr "test")]))))
  = Some (VStr body_foo_test).
Proof.
  rewrite (process_response_schema_success false schemas (Marshmallow_default json_codec)
             json_post foo_resource (with_result (VDict [("bar", VStr "test")]))
             0 (VDict [("bar", VStr "test")]) (VStr body_foo_test)
             eq_refl eq_refl eq_refl eq_refl).
  reflexivity.
Defined.

Lemma process_response_schema_failure_witness :
  fst (process_response false schemas (Marshmallow_default json_codec)
         json_post raising_resource (with_result foo_parsed))
  = Raise (mkHTTPInternalServerError TITLE_NOT_SERIALIZED
             ("{" +:+ quote "error" +:+ ": " +:+ quote "boom" +:+ "}")).
Proof.
  rewrite (process_response_schema_failure false schemas (Marshmallow_default json_codec)
             json_post raising_resource (with_result foo_parsed)
             1 foo_parsed (py_error RuntimeError "boom")
             eq_refl eq_refl eq_refl eq_refl).
  reflexivity.
Defined.

Lemma process_response_marshmallow2_witness :
  resp_body (snd (process_response true schemas2 (Marshmallow_default json_codec)
                    json_post foo_resource (with_result (VDict [("bar", VStr "test")]))))
  = Some (VStr body_foo_test).
Proof.
  rewrite (process_response_marshmallow2 true schemas2 (Marshmallow_default json_codec)
             json_post foo_resource (with_result (VDict [("bar", VStr "test")]))
             0 (VDict [("bar", VStr "test")]) eq_refl eq_refl eq_refl).
  reflexivity.
Defined.

Lemma absent_or_exact_type_is_expected_witness :
  process_resource false (fun _ _ => Raise (py_error RuntimeError "unused")) schemas
    (Marshmallow_default json_codec)
    (mkRequest "POST" None (Some 15) true) foo_resource (fresh body_foo_test)
  = process_resource false ref_quality schemas
      (handling_all (Marshmallow_default json_codec))
      (mkRequest "POST" None (Some 15) true) foo_resource (fresh body_foo_test).
Proof.
  apply (absent_or_exact_type_is_expected false schemas (Marshmallow_default json_codec)
           (mkRequest "POST" None (Some 15) true) foo_resource (fresh body_foo_test)
           (fun _ _ => Raise (py_error RuntimeError "unused")) ref_quality).
  left. reflexivity.
Defined.
